(** * XDM1041: the SCPI serial framer and the instrument protocol

    A shallow embedding of [src/XDM1041.py]: the class [SCPI] (framing of
    the replies on CR LF, with the idle-read limit) and the class
    [XdmMeter] (command vocabulary, retry loop, repair of the device's
    non-ASCII artifacts).

    Python values are modelled as follows.
    - [bytes] / [bytearray]: [list byte];
    - [str]: [pystr], the list of its Unicode code points;
    - the serial port: an oracle giving the result of the k-th [read(64)],
      and a log of the I/O events performed so far;
    - exceptions and non-termination: the monad [M], whose computations
      return [None] when the fuel runs out, and otherwise a value or a
      raised exception together with the new state of the world. *)

From Stdlib Require Import String Ascii.
From Stdlib Require Import Strings.Byte.
From Stdlib Require Import DecimalString.
From Stdlib Require Import ZArith NArith Arith Bool Lia List.
Import ListNotations.

Local Open Scope list_scope.

(** ** Python strings and bytes *)

Definition pystr := list N.

(** The code points of an ASCII literal of the source. *)
Definition str (s : string) : pystr :=
  map N_of_ascii (list_ascii_of_string s).

Definition CR : N := 13.
Definition LF : N := 10.

(** [b"\r\n"] and ["\r\n"]. *)
Definition CRLF_bytes : list byte := [x0d; x0a].
Definition CRLF : pystr := [CR; LF].

Definition bytes_eqb (a b : list byte) : bool :=
  if list_eq_dec Byte.byte_eq_dec a b then true else false.

Definition pystr_eqb (a b : pystr) : bool :=
  if list_eq_dec N.eq_dec a b then true else false.

(** [len(x)], an integer. *)
Definition len {A} (l : list A) : Z := Z.of_nat (length l).

(** The slice [x[-k:]]: the last [k] items, all of [x] when it is shorter. *)
Definition slice_last {A} (k : nat) (l : list A) : list A :=
  skipn (length l - k) l.

(** The slice [x[:-k]]: all but the last [k] items. *)
Definition slice_drop_last {A} (k : nat) (l : list A) : list A :=
  firstn (length l - k) l.

(** [s.startswith(p)] and [s.endswith(p)]. *)
Fixpoint startswith (s p : pystr) : bool :=
  match p, s with
  | [], _ => true
  | _ :: _, [] => false
  | a :: p', b :: s' => N.eqb a b && startswith s' p'
  end.

Definition endswith (s p : pystr) : bool :=
  (length p <=? length s)%nat && pystr_eqb (slice_last (length p) s) p.

(** [s.find(sub)]: the lowest index at which [sub] occurs, [-1] if none. *)
Fixpoint find_from (i : Z) (s sub : pystr) : Z :=
  if startswith s sub then i
  else match s with
       | [] => (-1)%Z
       | _ :: s' => find_from (i + 1) s' sub
       end.

Definition find (s sub : pystr) : Z := find_from 0 s sub.

(** Whitespace as [str.strip()] sees it ([Py_UNICODE_ISSPACE]). *)
Definition in_range (lo hi x : N) : bool := (lo <=? x)%N && (x <=? hi)%N.

Definition isspace (c : N) : bool :=
  in_range 0x09 0x0D c || in_range 0x1C 0x20 c
  || N.eqb c 0x85 || N.eqb c 0xA0 || N.eqb c 0x1680
  || in_range 0x2000 0x200A c || N.eqb c 0x2028 || N.eqb c 0x2029
  || N.eqb c 0x202F || N.eqb c 0x205F || N.eqb c 0x3000.

Fixpoint dropwhile {A} (f : A -> bool) (l : list A) : list A :=
  match l with
  | [] => []
  | a :: l' => if f a then dropwhile f l' else l
  end.

(** [s.strip(chars)] for the characters satisfying [f]. *)
Definition strip_with (f : N -> bool) (s : pystr) : pystr :=
  rev (dropwhile f (rev (dropwhile f s))).

(** [s.strip()]. *)
Definition strip (s : pystr) : pystr := strip_with isspace s.

(** [s.strip(chars)] with the double quote as [chars]. *)
Definition DQUOTE : N := 34.
Definition strip_dquote (s : pystr) : pystr := strip_with (N.eqb DQUOTE) s.

(** ** [bytes.decode(errors="backslashreplace")]

    The default codec is UTF-8.  A well-formed sequence (one to four bytes,
    no overlong form, no surrogate, at most U+10FFFF) gives its code point.
    The error handler replaces every byte of an ill-formed range by the
    four characters backslash, x and two lower-case hexadecimal digits, and
    decoding resumes behind the range.  Every byte of such a range behind
    its first is a continuation byte, which is ill-formed as a first byte:
    replacing the first byte alone and resuming at the next yields the same
    text, and this is how [decode] proceeds. *)

Definition hexdigit (d : N) : N :=
  if (d <? 10)%N then (48 + d)%N else (87 + d)%N.

Definition backslashreplace (c : N) : pystr :=
  [92; 120; hexdigit (c / 16); hexdigit (c mod 16)]%N.

Definition is_cont (c : N) : bool := in_range 0x80 0xBF c.

(** The sequence starting with the byte [c0], followed by the bytes [t]:
    its code point and the number of continuation bytes it takes. *)
Definition utf8_head (c0 : N) (t : list byte) : option (N * nat) :=
  if (c0 <? 0x80)%N then Some (c0, 0%nat)
  else if in_range 0xC2 0xDF c0 then
    match t with
    | b1 :: _ =>
        let c1 := Byte.to_N b1 in
        if is_cont c1
        then Some (((c0 - 0xC0) * 64 + (c1 - 0x80))%N, 1%nat)
        else None
    | _ => None
    end
  else if in_range 0xE0 0xEF c0 then
    match t with
    | b1 :: b2 :: _ =>
        let c1 := Byte.to_N b1 in
        let c2 := Byte.to_N b2 in
        let lo := if (c0 =? 0xE0)%N then 0xA0%N else 0x80%N in
        let hi := if (c0 =? 0xED)%N then 0x9F%N else 0xBF%N in
        if in_range lo hi c1 && is_cont c2
        then Some (((c0 - 0xE0) * 4096 + (c1 - 0x80) * 64 + (c2 - 0x80))%N,
                   2%nat)
        else None
    | _ => None
    end
  else if in_range 0xF0 0xF4 c0 then
    match t with
    | b1 :: b2 :: b3 :: _ =>
        let c1 := Byte.to_N b1 in
        let c2 := Byte.to_N b2 in
        let c3 := Byte.to_N b3 in
        let lo := if (c0 =? 0xF0)%N then 0x90%N else 0x80%N in
        let hi := if (c0 =? 0xF4)%N then 0x8F%N else 0xBF%N in
        if in_range lo hi c1 && is_cont c2 && is_cont c3
        then Some (((c0 - 0xF0) * 262144 + (c1 - 0x80) * 4096
                    + (c2 - 0x80) * 64 + (c3 - 0x80))%N, 3%nat)
        else None
    | _ => None
    end
  else None.

(** [skip] counts the continuation bytes already taken by the sequence in
    progress. *)
Fixpoint decode_from (skip : nat) (bs : list byte) : pystr :=
  match bs with
  | [] => []
  | b :: t =>
      match skip with
      | S k => decode_from k t
      | O =>
          match utf8_head (Byte.to_N b) t with
          | Some (cp, k) => cp :: decode_from k t
          | None => backslashreplace (Byte.to_N b) ++ decode_from 0 t
          end
      end
  end.

Definition decode (bs : list byte) : pystr := decode_from 0 bs.

(** ** The world: the serial port and what the program did to it *)

Inductive event :=
| EvOpen (port_dev : pystr) (speed : N) (timeout_ms : N)
| EvWrite (data : list byte)
| EvRead (size : N) (data : list byte)
| EvClose
| EvSleep (ms : N)
| EvPrint (text : pystr).

(** [reads] counts the calls of [read] so far, [log] lists the events,
    oldest first. *)
Record world := mkWorld { reads : nat; log : list event }.

(** The device and the line: [rx k] is what the k-th call of [read]
    returns (nothing, on a timeout; a real port gives at most the 64 bytes
    asked for, which no property below depends on); [close_raises] tells,
    from the events so far, whether closing the port fails. *)
Record device := mkDevice {
  rx : nat -> list byte;
  close_raises : list event -> bool
}.

Inductive exn := AttributeError | TypeError | UnicodeEncodeError | SerialException.

Inductive outcome (A : Type) :=
| Ok (a : A)
| Raise (e : exn).
Arguments Ok {A} a.
Arguments Raise {A} e.

(** A computation: [None] when the fuel given to its loops ran out. *)
Definition M (A : Type) : Type := world -> option (outcome A * world).

Definition ret {A} (a : A) : M A := fun w => Some (Ok a, w).

Definition raise {A} (e : exn) : M A := fun w => Some (Raise e, w).

Definition bind {A B} (m : M A) (k : A -> M B) : M B :=
  fun w =>
    match m w with
    | None => None
    | Some (Raise e, w') => Some (Raise e, w')
    | Some (Ok a, w') => k a w'
    end.

(** [try: m except: h], the bare [except] that catches everything. *)
Definition try_except {A} (m : M A) (h : M A) : M A :=
  fun w =>
    match m w with
    | None => None
    | Some (Raise _, w') => h w'
    | Some (Ok a, w') => Some (Ok a, w')
    end.

Definition out_of_fuel {A} : M A := fun _ => None.

Declare Scope py_scope.
Delimit Scope py_scope with py.
Notation "x <- m ;; k" := (bind m (fun x => k))
  (at level 61, m at next level, right associativity) : py_scope.
Notation "m ;; k" := (bind m (fun _ => k))
  (at level 61, right associativity) : py_scope.
Local Open Scope py_scope.

Definition emit (e : event) : M unit :=
  fun w => Some (Ok tt, mkWorld (reads w) (log w ++ [e])).

(** [time.sleep], with the delay in milliseconds. *)
Definition sleep (ms : N) : M unit := emit (EvSleep ms).

Definition print (text : pystr) : M unit := emit (EvPrint text).

(** The three methods of [serial.Serial] the program calls. *)
Definition Serial_read (dev : device) (size : N) : M (list byte) :=
  fun w =>
    let data := rx dev (reads w) in
    Some (Ok data, mkWorld (S (reads w)) (log w ++ [EvRead size data])).

Definition Serial_write (data : list byte) : M unit := emit (EvWrite data).

Definition Serial_close (dev : device) : M unit :=
  fun w =>
    let w' := mkWorld (reads w) (log w ++ [EvClose]) in
    if close_raises dev (log w) then Some (Raise SerialException, w')
    else Some (Ok tt, w').

(** [msg.encode("ascii")]. *)
Fixpoint encode_ascii (s : pystr) : option (list byte) :=
  match s with
  | [] => Some []
  | c :: s' =>
      if (c <? 128)%N then
        match Byte.of_N c, encode_ascii s' with
        | Some b, Some bs => Some (b :: bs)
        | _, _ => None
        end
      else None
  end.

(** ** class SCPI

    The program opens one port; the world is that port, and [_SIF] keeps
    the settings it was opened with. *)

Module SCPI.

Record obj := mkSCPI { _SIF : pystr * N * N }.

(** [timeout] is given in milliseconds. *)
Definition __init__ (port_dev : pystr) (speed : N) (timeout : N) : M obj :=
  emit (EvOpen port_dev speed timeout) ;;
  ret (mkSCPI (port_dev, speed, timeout)).

Definition __del__ (dev : device) : M unit :=
  try_except (Serial_close dev) (ret tt).

(** The [while True] loop of [readdata]; it returns [buf] as it is at
    the [break]. *)
Fixpoint readdata_loop (dev : device) (fuel : nat)
    (buf : list byte) (n : Z) : M (list byte) :=
  match fuel with
  | O => out_of_fuel
  | S fuel' =>
      data <- Serial_read dev 64 ;;
      if (len data >? 0)%Z then
        let buf := buf ++ data in
        if (len buf >=? 2)%Z && bytes_eqb (slice_last 2 buf) CRLF_bytes
        then ret buf
        else readdata_loop dev fuel' buf n
      else
        let n := (n + 1)%Z in
        if (n >? 2)%Z then ret []
        else readdata_loop dev fuel' buf n
  end.

(** What [readdata] makes of the buffer behind the loop. *)
Definition frame_text (buf : list byte) : pystr :=
  let res := decode buf in
  let x := find res CRLF in
  if (x =? len res - 2)%Z then strip res else [].

Definition readdata (dev : device) (fuel : nat) : M pystr :=
  buf <- readdata_loop dev fuel [] 0%Z ;;
  ret (frame_text buf).

(** The result is [None] for Python's [None]. *)
Definition sendcmd (dev : device) (fuel : nat) (msg : pystr)
    (getdata : bool) : M (option pystr) :=
  let msg := msg ++ [LF] in
  match encode_ascii msg with
  | None => raise UnicodeEncodeError
  | Some data =>
      Serial_write data ;;
      if getdata then
        res <- readdata dev fuel ;;
        ret (Some res)
      else ret None
  end.

End SCPI.

(** ** class XdmMeter *)

Module XdmMeter.

Inductive cmds :=
| VOLT | VOLT_AC | CURR | CURR_AC | RES | CAP | FREQ | PER | TEMP
| DIODE | CONT.

Definition name (c : cmds) : string :=
  match c with
  | VOLT => "VOLT" | VOLT_AC => "VOLT_AC" | CURR => "CURR"
  | CURR_AC => "CURR_AC" | RES => "RES" | CAP => "CAP" | FREQ => "FREQ"
  | PER => "PER" | TEMP => "TEMP" | DIODE => "DIODE" | CONT => "CONT"
  end.

(** The value of a member is a tuple of one string. *)
Definition value (c : cmds) : list string :=
  match c with
  | VOLT => ["VOLT"] | VOLT_AC => ["VOLT:AC"] | CURR => ["CURR"]
  | CURR_AC => ["CURR:AC"] | RES => ["RES"] | CAP => ["CAP"]
  | FREQ => ["FREQ"] | PER => ["PER"] | TEMP => ["TEMP"]
  | DIODE => ["DIOD"] | CONT => ["CONT"]
  end%string.

Definition __str__ (c : cmds) : pystr := str (name c).

(** [f"{mode}"]: [Enum.__format__] formats [str(mode)]. *)
Definition format (c : cmds) : pystr := __str__ c.

Record obj := mkXdm { MiniBM : option SCPI.obj; id : option pystr }.

Definition repr (s : option pystr) : pystr :=
  match s with
  | Some s => s
  | None => str "None"
  end.

(** The timeout of 0.1 s is given in milliseconds.  In the branch of the
    empty reply, the assignment of [None] to [MiniBM] drops the only
    reference to the [SCPI] object: the interpreter runs its [__del__]
    there, which closes the port, before the [print]. *)
Definition __init__ (dev : device) (fuel : nat) (port : pystr) : M obj :=
  scpi <- SCPI.__init__ port 115200 100 ;;
  id <- SCPI.sendcmd dev fuel (str "*IDN?") true ;;
  match id with
  | Some [] =>
      SCPI.__del__ dev ;;
      print (str "device at " ++ port ++ str " does not respond") ;;
      ret (mkXdm None id)
  | _ =>
      print (repr id) ;;
      ret (mkXdm (Some scpi) id)
  end.

(** The text branch of [get_response]: the repair of the escapes the
    decoder left for the device's two non-ASCII unit signs, and of the
    quoted replies. *)
Definition OMEGA_ESC : pystr := str "\xa6\xb8".
Definition MU_F_ESC : pystr := str "\xa6\xccF".

Definition repair (s : pystr) : pystr :=
  if endswith s OMEGA_ESC then slice_drop_last 8 s ++ str "Ohm"
  else if endswith s MU_F_ESC then slice_drop_last 9 s ++ str "uF"
  else if endswith s [DQUOTE] then strip_dquote s
  else s.

Section Float.

(** [float(s)]: the type of the floating-point values and the parser
    of Python, [None] when it raises [ValueError]. *)
Variable F : Type.
Variable float : pystr -> option F.

Inductive pyval :=
| VFloat (v : F)
| VInt (z : Z)
| VStr (s : pystr)
| VNone.

Definition sentinel (Numeric : bool) : pyval :=
  if Numeric then VInt 0 else VStr (str "?").

(** The loop [while not Successful], entered with the counter [n]. *)
Fixpoint get_response_loop (dev : device) (fuel : nat) (self : obj)
    (cmd : pystr) (Numeric : bool) (n : Z) : M pyval :=
  match fuel with
  | O => out_of_fuel
  | S fuel' =>
      match MiniBM self with
      | None => raise AttributeError
      | Some _ =>
          s <- SCPI.sendcmd dev fuel' cmd true ;;
          match s with
          | None => if Numeric then raise TypeError
                    else raise AttributeError
          | Some s =>
              if negb (pystr_eqb s []) then
                if Numeric then
                  match float s with
                  | Some v => ret (VFloat v)
                  | None => ret (VInt 0)
                  end
                else ret (VStr (repair s))
              else
                sleep 100 ;;
                let n := (n + 1)%Z in
                if (n >? 5)%Z then ret (sentinel Numeric)
                else get_response_loop dev fuel' self cmd Numeric n
          end
      end
  end.

Definition get_response (dev : device) (fuel : nat) (self : obj)
    (cmd : pystr) (Numeric : bool) : M pyval :=
  get_response_loop dev fuel self cmd Numeric 0%Z.

Definition set_mode (dev : device) (fuel : nat) (self : obj)
    (mode : cmds) : M pyval :=
  get_response dev fuel self (str "CONF:" ++ format mode) false ;;
  ret VNone.

Definition get_mode (dev : device) (fuel : nat) (self : obj) : M pyval :=
  get_response dev fuel self (str "FUNC?") false.

Definition get_measurement (dev : device) (fuel : nat) (self : obj)
    : M pyval :=
  get_response dev fuel self (str "MEAS?") true.

Definition close (dev : device) (self : obj) : M pyval :=
  match MiniBM self with
  | None => raise AttributeError
  | Some _ => SCPI.__del__ dev ;; ret VNone
  end.

End Float.

Arguments VFloat {F} v.
Arguments VInt {F} z.
Arguments VStr {F} s.
Arguments VNone {F}.
Arguments sentinel {F} Numeric.
Arguments get_response_loop {F} float dev fuel self cmd Numeric n.
Arguments get_response {F} float dev fuel self cmd Numeric.
Arguments set_mode {F} float dev fuel self mode.
Arguments get_mode {F} float dev fuel self.
Arguments get_measurement {F} float dev fuel self.
Arguments close {F} dev self.

End XdmMeter.

(** ** Vocabulary of the statements *)

(** The replies a call sees: its k-th [read] returns [chunks dev w k] when
    the call starts in the world [w]. *)
Definition chunks (dev : device) (w : world) : nat -> list byte :=
  fun k => rx dev (reads w + k).

Definition is_nil {A} (l : list A) : bool :=
  match l with
  | [] => true
  | _ :: _ => false
  end.

(** The bytes of the first [m] chunks, the number of empty chunks among
    them, and the number of empty chunks at their end, back to the last
    chunk that had bytes. *)
Fixpoint acc (c : nat -> list byte) (m : nat) : list byte :=
  match m with
  | O => []
  | S m' => acc c m' ++ c m'
  end.

Fixpoint empties (c : nat -> list byte) (m : nat) : nat :=
  match m with
  | O => O
  | S m' => if is_nil (c m') then S (empties c m') else empties c m'
  end.

Fixpoint consecutive_empties (c : nat -> list byte) (m : nat) : nat :=
  match m with
  | O => O
  | S m' => if is_nil (c m') then S (consecutive_empties c m') else O
  end.

Definition ends_crlf (buf : list byte) : Prop :=
  exists p, buf = p ++ CRLF_bytes.

(** [sub] occurs in [s]. *)
Definition occurs (sub s : pystr) : Prop :=
  exists a b, s = a ++ sub ++ b.

Definition no_leading (f : N -> bool) (s : pystr) : Prop :=
  match s with
  | [] => True
  | c :: _ => f c = false
  end.

Definition no_trailing (f : N -> bool) (s : pystr) : Prop :=
  no_leading f (rev s).

(** The events of a log other than the reads, and the reads. *)
Definition is_read (e : event) : bool :=
  match e with
  | EvRead _ _ => true
  | _ => false
  end.

Definition actions (l : list event) : list event :=
  filter (fun e => negb (is_read e)) l.

Definition read_events (c : nat -> list byte) (m : nat) : list event :=
  map (fun k => EvRead 64 (c k)) (seq 0 m).

(** The events of [k] rounds of the retry loop, reads left out. *)
Fixpoint rounds (k : nat) (data : list byte) : list event :=
  match k with
  | O => []
  | S k' => EvWrite data :: EvSleep 100 :: rounds k' data
  end.

(** The test of the loop is [ends_crlf]. *)
Definition ends_crlfb (buf : list byte) : bool :=
  (len buf >=? 2)%Z && bytes_eqb (slice_last 2 buf) CRLF_bytes.

Definition all_of (f : N -> bool) (s : pystr) : Prop :=
  Forall (fun c => f c = true) s.

(** A byte that no sequence takes as a continuation. *)
Definition breaks (q : list byte) : Prop :=
  match q with
  | [] => True
  | b :: _ => is_cont (Byte.to_N b) = false
  end.

Definition shift (c : nat -> list byte) : nat -> list byte :=
  fun k => c (S k).

(** The loop entered with [buf] and [n] leaves at its k-th read. *)
Definition stops (c : nat -> list byte) (buf : list byte) (n : Z)
    (k : nat) : bool :=
  if is_nil (c k) then (n + Z.of_nat (empties c (S k)) >? 2)%Z
  else ends_crlfb (buf ++ acc c (S k)).

Definition loop_result (c : nat -> list byte) (buf : list byte)
    (k : nat) : list byte :=
  if is_nil (c k) then [] else buf ++ acc c (S k).

(** The world behind the write of [data]. *)
Definition written (w : world) (data : list byte) : world :=
  mkWorld (reads w) (log w ++ [EvWrite data]).

(** The world behind the pause of a failed attempt. *)
Definition paused (w : world) : world :=
  mkWorld (reads w) (log w ++ [EvSleep 100]).

(** ** Devices and values for concrete runs *)

Definition bytes_of (s : string) : list byte :=
  map byte_of_ascii (list_ascii_of_string s).

(** The device that sends the chunks of [l], one per read, then nothing. *)
Definition script (l : list (list byte)) : device :=
  mkDevice (fun k => nth k l []) (fun _ => false).

(** The device that never sends a byte. *)
Definition silent : device := script [].

(** The device that sends the letter A at every read. *)
Definition chatter : device := mkDevice (fun _ => [x41]) (fun _ => false).

(** The device that answers one query with its name, on a port that
    fails whenever it is closed. *)
Definition stuck : device :=
  mkDevice (fun k => nth k [bytes_of "XDM1041,V1.0" ++ CRLF_bytes] [])
           (fun _ => true).

Definition w0 : world := mkWorld 0 [].

(** Lines for the runs below: two silences, the letter A, two silences and
    a terminator; a frame with a byte behind its terminator; a frame in two
    reads; two frames in one read; a resistance with the device's sign for
    Ohm (bytes A6 B8); a reply that is no number. *)
Definition broken_idle_line : device :=
  script [[]; [x41]; []; []; CRLF_bytes].

Definition noisy_line : device :=
  script [bytes_of "AB" ++ CRLF_bytes ++ bytes_of "X"].

Definition volt_line : device :=
  script [bytes_of " VOLT"; CRLF_bytes].

Definition two_frames_line : device :=
  script [bytes_of "AB" ++ CRLF_bytes ++ bytes_of "C" ++ CRLF_bytes].

Definition ohm_line : device :=
  script [[x31; x2e; x35; xa6; xb8; x0d; x0a]].

Definition abc_line : device :=
  script [bytes_of "abc" ++ CRLF_bytes].

(** A parser for the runs below: it accepts the decimal literals made of
    an optional sign, digits, and an optional point followed by digits,
    which [float] accepts too, and stands for the value by the literal. *)
Definition isdigit (c : N) : bool := in_range 48 57 c.

Definition plain_decimal (s : pystr) : option pystr :=
  let body := match s with
              | c :: r => if (c =? 45)%N || (c =? 43)%N then r else s
              | [] => []
              end in
  match body with
  | d :: _ =>
      if isdigit d
         && match dropwhile isdigit body with
            | [] => true
            | c :: r => (c =? 46)%N && forallb isdigit r
            end
      then Some s else None
  | [] => None
  end.

Definition a_meter : XdmMeter.obj :=
  XdmMeter.mkXdm (Some (SCPI.mkSCPI (str "COM23", 115200%N, 100%N)))
                 (Some (str "XDM1041,V1.0")).

(** The instance and the world that [__init__] leaves on the silent
    device, and the world it leaves on [stuck]. *)
Definition absent_meter : XdmMeter.obj := XdmMeter.mkXdm None (Some []).

Definition absent_world : world :=
  mkWorld 3 [EvOpen (str "COM23") 115200 100;
             EvWrite (bytes_of "*IDN?" ++ [x0a]);
             EvRead 64 []; EvRead 64 []; EvRead 64 [];
             EvClose;
             EvPrint (str "device at COM23 does not respond")].

Definition stuck_world : world :=
  mkWorld 1 [EvOpen (str "COM23") 115200 100;
             EvWrite (bytes_of "*IDN?" ++ [x0a]);
             EvRead 64 (bytes_of "XDM1041,V1.0" ++ CRLF_bytes);
             EvPrint (str "XDM1041,V1.0")].

(** The worlds that one send of MEAS? leaves on [ohm_line] and on
    [abc_line]. *)
Definition ohm_world : world :=
  mkWorld 1 [EvWrite (bytes_of "MEAS?" ++ [x0a]);
             EvRead 64 [x31; x2e; x35; xa6; xb8; x0d; x0a]].

Definition abc_world : world :=
  mkWorld 1 [EvWrite (bytes_of "MEAS?" ++ [x0a]);
             EvRead 64 (bytes_of "abc" ++ CRLF_bytes)].

(** A device that names itself and is silent from then on. *)
Definition named_line : device :=
  script [bytes_of "XDM1041,V1.0" ++ CRLF_bytes].

(** A device that names itself and then reports its function. *)
Definition xdm_line : device :=
  script [bytes_of "XDM1041,V1.0" ++ CRLF_bytes; bytes_of "VOLT" ++ CRLF_bytes].

(** ** The program run as a script

    [serial.tools.list_ports.comports()] gives the ports of the machine,
    each with its device path, its description and its hardware id.  As
    everywhere in this file, opening the port, reading and writing are
    taken to succeed: of the failures of the port itself only that of
    closing it is modelled. *)

(** [sub in s], for strings. *)
Definition contains (sub s : pystr) : bool := (0 <=? find s sub)%Z.

Module ListPortInfo.

Record t := mk { device : pystr; description : pystr; hwid : pystr }.

End ListPortInfo.

Module Main.

Definition CH340 : pystr := str "CH340".

Definition found_line (p : ListPortInfo.t) : pystr :=
  str "XDM Found: " ++ ListPortInfo.device p ++ str " "
  ++ ListPortInfo.description p ++ str " " ++ ListPortInfo.hwid p.

(** The loop over the ports.  The test is the chained comparison
    [a in b in b], which stands for [a in b and b in b]. *)
Fixpoint scan_ports (ports : list ListPortInfo.t) (port : pystr) : M pystr :=
  match ports with
  | [] => ret port
  | p :: rest =>
      if contains CH340 (ListPortInfo.description p)
         && contains (ListPortInfo.description p) (ListPortInfo.description p)
      then print (found_line p) ;;
           scan_ports rest (ListPortInfo.device p)
      else scan_ports rest port
  end.

Definition choose_port (ports : list ListPortInfo.t) : M pystr :=
  port <- scan_ports ports [] ;;
  if pystr_eqb port [] then
    print (str "XDM not found") ;;
    ret (str "COM23")
  else ret port.

Section Float.

(** [float(s)] as in [XdmMeter], and [str(v)] for a float. *)
Variable F : Type.
Variable float : pystr -> option F.
Variable float_str : F -> pystr.

(** [str(resp)], which [print] writes. *)
Definition str_of (v : XdmMeter.pyval F) : pystr :=
  match v with
  | XdmMeter.VFloat f => float_str f
  | XdmMeter.VInt z => str (NilZero.string_of_int (Z.to_int z))
  | XdmMeter.VStr s => s
  | XdmMeter.VNone => str "None"
  end.

(** The body of the script, the ports given.  The port is still open
    when it ends. *)
Definition main (dev : device) (fuel : nat)
    (ports : list ListPortInfo.t) : M unit :=
  port <- choose_port ports ;;
  xdm <- XdmMeter.__init__ dev fuel port ;;
  resp <- XdmMeter.get_mode float dev fuel xdm ;;
  print (str_of resp) ;;
  print (XdmMeter.__str__ XdmMeter.VOLT) ;;
  resp <- XdmMeter.set_mode float dev fuel xdm XdmMeter.VOLT ;;
  resp <- XdmMeter.get_measurement float dev fuel xdm ;;
  resp <- XdmMeter.get_response float dev fuel xdm (str "MEAS?") true ;;
  print (str_of resp).

End Float.

Arguments str_of {F} float_str v.
Arguments main {F} float float_str dev fuel ports.

End Main.

(** The test of [scan_ports] without its second half. *)
Definition hit (p : ListPortInfo.t) : bool :=
  contains (str "CH340") (ListPortInfo.description p).

(** A device that answers the second send of a query, and the world that
    [get_response] for FUNC? leaves on it. *)
Definition slow_line : device :=
  script [[]; []; []; bytes_of "VOLT" ++ CRLF_bytes].

Definition slow_world : world :=
  mkWorld 4 [EvWrite (bytes_of "FUNC?" ++ [x0a]);
             EvRead 64 []; EvRead 64 []; EvRead 64 [];
             EvSleep 100;
             EvWrite (bytes_of "FUNC?" ++ [x0a]);
             EvRead 64 (bytes_of "VOLT" ++ CRLF_bytes)].

(** The bytes hold a terminator. *)
Definition occurs_bytes (bs : list byte) : Prop :=
  exists p q, bs = p ++ CRLF_bytes ++ q.

(** The value [get_response] returns for the line [s]. *)
Definition answer {F : Type} (float : pystr -> option F) (Numeric : bool)
    (s : pystr) : XdmMeter.pyval F :=
  if Numeric then
    match float s with
    | Some v => XdmMeter.VFloat v
    | None => XdmMeter.VInt 0
    end
  else XdmMeter.VStr (XdmMeter.repair s).

(** What was written to the port, in order. *)
Definition writes (l : list event) : list (list byte) :=
  flat_map (fun e => match e with
                     | EvWrite data => [data]
                     | _ => []
                     end) l.

(** The world the script leaves on the silent device, no port listed. *)
Definition main_absent_world : world :=
  mkWorld 3 [EvPrint (str "XDM not found");
             EvOpen (str "COM23") 115200 100;
             EvWrite (bytes_of "*IDN?" ++ [x0a]);
             EvRead 64 []; EvRead 64 []; EvRead 64 [];
             EvClose;
             EvPrint (str "device at COM23 does not respond")].

(** * Properties *)

(** ** Runs *)

Example decode_ascii_reply :
  decode (bytes_of "VOLT" ++ CRLF_bytes) = str "VOLT" ++ CRLF.
Proof. reflexivity. Qed.

Example decode_utf8_sequences :
  decode [xe2; x84; xa6; xc2; xb5; xf0; x9f; x98; x80]
  = [0x2126; 0xB5; 0x1F600]%N.
Proof. reflexivity. Qed.

Example decode_ohm_sign : decode [xa6; xb8] = XdmMeter.OMEGA_ESC.
Proof. reflexivity. Qed.

Example decode_micro_farad : decode [xa6; xcc; x46] = XdmMeter.MU_F_ESC.
Proof. reflexivity. Qed.

Example decode_ill_formed :
  decode [xe2; x28; xa1; xed; xa0; x80; xc0; x80]
  = str "\xe2(\xa1\xed\xa0\x80\xc0\x80".
Proof. reflexivity. Qed.

Example identification_then_get_mode :
  (self <- XdmMeter.__init__ xdm_line 5 (str "COM23") ;;
   XdmMeter.get_mode plain_decimal xdm_line 5 self) w0
  = Some (Ok (XdmMeter.VStr (str "VOLT")),
          mkWorld 2 [EvOpen (str "COM23") 115200 100;
                     EvWrite (bytes_of "*IDN?" ++ [x0a]);
                     EvRead 64 (bytes_of "XDM1041,V1.0" ++ CRLF_bytes);
                     EvPrint (str "XDM1041,V1.0");
                     EvWrite (bytes_of "FUNC?" ++ [x0a]);
                     EvRead 64 (bytes_of "VOLT" ++ CRLF_bytes)]).
Proof. reflexivity. Qed.

Example measurement_of_a_number :
  XdmMeter.get_measurement plain_decimal
    (script [bytes_of "-12.5" ++ CRLF_bytes]) 5 a_meter w0
  = Some (Ok (XdmMeter.VFloat (str "-12.5")),
          mkWorld 1 [EvWrite (bytes_of "MEAS?" ++ [x0a]);
                     EvRead 64 (bytes_of "-12.5" ++ CRLF_bytes)]).
Proof. reflexivity. Qed.

Example quoted_reply_is_unquoted :
  XdmMeter.repair (DQUOTE :: str "VOLT" ++ [DQUOTE]) = str "VOLT".
Proof. reflexivity. Qed.

(** ** Lists, slices and searches *)

Lemma slice_last_app {A} (p s : list A) :
  slice_last (length s) (p ++ s) = s.
Proof.
  unfold slice_last. rewrite length_app.
  replace (length p + length s - length s)%nat with (length p + 0)%nat by lia.
  rewrite skipn_app, Nat.add_0_r, skipn_all.
  replace (length p - length p)%nat with 0%nat by lia. reflexivity.
Qed.

Lemma slice_last_split {A} (k : nat) (l : list A) :
  (k <= length l)%nat ->
  l = slice_drop_last k l ++ slice_last k l /\ length (slice_last k l) = k.
Proof.
  intros H. unfold slice_drop_last, slice_last. split.
  - symmetry. apply firstn_skipn.
  - rewrite length_skipn. lia.
Qed.

Lemma slice_drop_last_app {A} (p s : list A) :
  slice_drop_last (length s) (p ++ s) = p.
Proof.
  unfold slice_drop_last. rewrite length_app.
  replace (length p + length s - length s)%nat with (length p + 0)%nat by lia.
  rewrite firstn_app_2. simpl. apply app_nil_r.
Qed.

Lemma bytes_eqb_eq a b : bytes_eqb a b = true <-> a = b.
Proof.
  unfold bytes_eqb. destruct (list_eq_dec Byte.byte_eq_dec a b); split;
    intros; congruence.
Qed.

Lemma pystr_eqb_eq a b : pystr_eqb a b = true <-> a = b.
Proof.
  unfold pystr_eqb. destruct (list_eq_dec N.eq_dec a b); split;
    intros; congruence.
Qed.

Lemma ends_crlfb_spec buf : ends_crlfb buf = true <-> ends_crlf buf.
Proof.
  unfold ends_crlfb, ends_crlf. rewrite andb_true_iff, bytes_eqb_eq. split.
  - intros [Hlen Heq]. exists (slice_drop_last 2 buf).
    unfold len in Hlen. apply Z.geb_le in Hlen.
    destruct (slice_last_split 2 buf) as [Hs _]; [lia|].
    rewrite <- Heq. exact Hs.
  - intros [p ->]. split.
    + apply Z.geb_le. unfold len. rewrite length_app. simpl. lia.
    + apply (slice_last_app p CRLF_bytes).
Qed.

Lemma endswith_spec s p : endswith s p = true <-> exists a, s = a ++ p.
Proof.
  unfold endswith. rewrite andb_true_iff, pystr_eqb_eq, Nat.leb_le. split.
  - intros [Hlen Heq]. exists (slice_drop_last (length p) s).
    destruct (slice_last_split (length p) s Hlen) as [Hs _].
    rewrite Heq in Hs. exact Hs.
  - intros [a ->]. split.
    + rewrite length_app. lia.
    + apply slice_last_app.
Qed.

Lemma startswith_spec s p : startswith s p = true <-> exists b, s = p ++ b.
Proof.
  revert s. induction p as [|a p IH]; intros s.
  - split; [intros _; exists s; reflexivity | destruct s; reflexivity].
  - destruct s as [|b s]; simpl.
    + split; [discriminate | intros [x Hx]; discriminate].
    + rewrite andb_true_iff, N.eqb_eq, IH. split.
      * intros [-> [x ->]]. exists x. reflexivity.
      * intros [x Hx]. injection Hx as -> ->. split; [reflexivity | eauto].
Qed.

Lemma find_from_eq i s sub :
  find_from i s sub =
  if startswith s sub then i
  else match s with
       | [] => (-1)%Z
       | _ :: s' => find_from (i + 1) s' sub
       end.
Proof. destruct s; reflexivity. Qed.

(** [find] stops at or before any occurrence. *)
Lemma find_from_le i a sub b :
  (i <= find_from i (a ++ sub ++ b) sub <= i + len a)%Z.
Proof.
  revert i. induction a as [|c a IH]; intros i; rewrite find_from_eq.
  - assert (H : startswith ([] ++ sub ++ b) sub = true)
      by (apply startswith_spec; exists b; reflexivity).
    rewrite H. unfold len. simpl. lia.
  - destruct (startswith ((c :: a) ++ sub ++ b) sub).
    + unfold len. simpl length. lia.
    + simpl app. specialize (IH (i + 1)%Z). unfold len in *.
      simpl length. lia.
Qed.

Lemma find_le a sub b : (0 <= find (a ++ sub ++ b) sub <= len a)%Z.
Proof. apply (find_from_le 0). Qed.

(** ** [strip] *)

Lemma dropwhile_split f (s : pystr) :
  exists p, s = p ++ dropwhile f s /\ all_of f p.
Proof.
  induction s as [|c s [p [Hs Hp]]]; simpl.
  - exists []. split; [reflexivity | constructor].
  - destruct (f c) eqn:E.
    + exists (c :: p). split; [simpl; congruence | constructor; assumption].
    + exists []. split; [reflexivity | constructor].
Qed.

Lemma dropwhile_no_leading f (s : pystr) : no_leading f (dropwhile f s).
Proof.
  induction s as [|c s IH]; simpl; [exact I|].
  destruct (f c) eqn:E; [exact IH | exact E].
Qed.

Lemma strip_with_split f s :
  exists l t, s = l ++ strip_with f s ++ t /\ all_of f l /\ all_of f t.
Proof.
  unfold strip_with.
  destruct (dropwhile_split f s) as [l [Hs Hl]].
  destruct (dropwhile_split f (rev (dropwhile f s))) as [t [Hr Ht]].
  exists l, (rev t). split; [|split].
  - rewrite <- rev_app_distr, <- Hr, rev_involutive. exact Hs.
  - exact Hl.
  - apply Forall_rev. exact Ht.
Qed.

Lemma strip_with_no_trailing f s : no_trailing f (strip_with f s).
Proof.
  unfold no_trailing, strip_with. rewrite rev_involutive.
  apply dropwhile_no_leading.
Qed.

Lemma strip_with_no_leading f s : no_leading f (strip_with f s).
Proof.
  pose proof (dropwhile_no_leading f s) as Hd.
  destruct (dropwhile_split f (rev (dropwhile f s))) as [t [Hr _]].
  apply (f_equal (@rev N)) in Hr.
  rewrite rev_involutive, rev_app_distr in Hr.
  unfold strip_with.
  destruct (rev (dropwhile f (rev (dropwhile f s)))) as [|c r]; [exact I|].
  rewrite Hr in Hd. exact Hd.
Qed.

(** A text without white space at its ends does not end with a line feed. *)
Lemma no_trailing_last f a c : no_trailing f (a ++ [c]) -> f c = false.
Proof. unfold no_trailing. rewrite rev_app_distr. simpl. auto. Qed.

(** ** The text of a frame *)

(** Whatever the buffer, the text made of it is empty or clean. *)
Lemma frame_text_clean buf :
  SCPI.frame_text buf = []
  \/ (~ occurs CRLF (SCPI.frame_text buf)
      /\ no_leading isspace (SCPI.frame_text buf)
      /\ no_trailing isspace (SCPI.frame_text buf)).
Proof.
  unfold SCPI.frame_text.
  destruct (find (decode buf) CRLF =? len (decode buf) - 2)%Z eqn:E;
    [right | left; reflexivity].
  apply Z.eqb_eq in E.
  split; [|split].
  - intros [a [b Hocc]].
    destruct (strip_with_split isspace (decode buf)) as [l [t [Hs _]]].
    fold (strip (decode buf)) in Hs. rewrite Hocc in Hs.
    assert (Hs' : decode buf = (l ++ a) ++ CRLF ++ (b ++ t))
      by (rewrite Hs; repeat rewrite <- app_assoc; reflexivity).
    pose proof (find_le (l ++ a) CRLF (b ++ t)) as Hf.
    rewrite <- Hs' in Hf. rewrite E in Hf.
    rewrite Hs' in Hf. unfold len in Hf.
    repeat rewrite length_app in Hf. simpl length in Hf.
    assert (Hb : b = []) by (destruct b; [reflexivity | simpl in Hf; lia]).
    subst b.
    pose proof (strip_with_no_trailing isspace (decode buf)) as Hn.
    fold (strip (decode buf)) in Hn. rewrite Hocc in Hn.
    change (a ++ CRLF ++ []) with (a ++ [CR; LF]) in Hn.
    replace (a ++ [CR; LF]) with ((a ++ [CR]) ++ [LF]) in Hn
      by (rewrite <- app_assoc; reflexivity).
    apply no_trailing_last in Hn. discriminate Hn.
  - apply strip_with_no_leading.
  - apply strip_with_no_trailing.
Qed.

(** ** Decoding and concatenation *)

Lemma in_range_narrow lo hi c :
  (0x80 <= lo)%N -> (hi <= 0xBF)%N ->
  is_cont c = false -> in_range lo hi c = false.
Proof.
  unfold is_cont, in_range. intros Hlo Hhi H.
  apply andb_false_iff in H. apply andb_false_iff.
  destruct H as [H | H]; [left | right];
    apply N.leb_gt in H; apply N.leb_gt; lia.
Qed.

Lemma in_range_cont lo hi c :
  (0x80 <= lo)%N -> (hi <= 0xBF)%N ->
  in_range lo hi c = true -> is_cont c = true.
Proof.
  intros Hlo Hhi H. destruct (is_cont c) eqn:E; [reflexivity|].
  rewrite (in_range_narrow lo hi c Hlo Hhi E) in H. discriminate.
Qed.

Ltac bounds :=
  repeat match goal with
         | |- context [if ?b then _ else _] => destruct b
         end; lia.

Lemma utf8_head_app c p q :
  breaks q -> utf8_head c (p ++ q) = utf8_head c p.
Proof.
  intros Hq. unfold utf8_head.
  destruct (c <? 0x80)%N; [reflexivity|].
  destruct (in_range 0xC2 0xDF c).
  { destruct p as [|b1 p]; [|reflexivity].
    destruct q as [|b q]; [reflexivity|]. simpl in *. rewrite Hq. reflexivity. }
  destruct (in_range 0xE0 0xEF c).
  { destruct p as [|b1 [|b2 p]]; [| |reflexivity]; simpl.
    - destruct q as [|b [|b' q]]; try reflexivity. simpl in Hq.
      rewrite in_range_narrow; [reflexivity | bounds | bounds | exact Hq].
    - destruct q as [|b q]; [reflexivity|]. simpl in Hq.
      unfold is_cont in *. rewrite Hq. rewrite andb_false_r. reflexivity. }
  destruct (in_range 0xF0 0xF4 c); [|reflexivity].
  destruct p as [|b1 [|b2 [|b3 p]]]; [| | |reflexivity]; simpl.
  - destruct q as [|b [|b' [|b'' q]]]; try reflexivity. simpl in Hq.
    rewrite in_range_narrow; [reflexivity | bounds | bounds | exact Hq].
  - destruct q as [|b [|b' q]]; try reflexivity. simpl in Hq.
    unfold is_cont in *. rewrite Hq. rewrite andb_false_r. reflexivity.
  - destruct q as [|b q]; [reflexivity|]. simpl in Hq.
    unfold is_cont in *. rewrite Hq. rewrite andb_false_r. reflexivity.
Qed.

(** A sequence takes no more continuation bytes than there are. *)
Lemma utf8_head_length c t cp k :
  utf8_head c t = Some (cp, k) -> (k <= length t)%nat.
Proof.
  unfold utf8_head.
  destruct (c <? 0x80)%N; [intros H; injection H as _ <-; lia|].
  destruct (in_range 0xC2 0xDF c).
  { destruct t as [|b1 t]; [discriminate|].
    destruct (is_cont (Byte.to_N b1)); [|discriminate].
    intros H; injection H as _ <-. simpl. lia. }
  destruct (in_range 0xE0 0xEF c).
  { destruct t as [|b1 [|b2 t]]; try discriminate.
    match goal with |- context [if ?b then _ else _] => destruct b end;
      [|discriminate].
    intros H; injection H as _ <-. simpl. lia. }
  destruct (in_range 0xF0 0xF4 c); [|discriminate].
  destruct t as [|b1 [|b2 [|b3 t]]]; try discriminate.
  match goal with |- context [if ?b then _ else _] => destruct b end;
    [|discriminate].
  intros H; injection H as _ <-. simpl. lia.
Qed.

Lemma decode_from_app p : forall k q,
  (k <= length p)%nat -> breaks q ->
  decode_from k (p ++ q) = decode_from k p ++ decode q.
Proof.
  induction p as [|b p IH]; intros k q Hk Hq.
  - simpl in Hk. assert (k = 0%nat) by lia. subst k. reflexivity.
  - simpl app. simpl decode_from. destruct k as [|k].
    + rewrite (utf8_head_app _ p q Hq).
      destruct (utf8_head (Byte.to_N b) p) as [[cp j]|] eqn:E.
      * apply utf8_head_length in E. rewrite IH by assumption. reflexivity.
      * rewrite IH by (simpl; lia || assumption). reflexivity.
    + simpl in Hk. apply IH; [lia | assumption].
Qed.

Lemma decode_app p q : breaks q -> decode (p ++ q) = decode p ++ decode q.
Proof. intros Hq. apply decode_from_app; [lia | exact Hq]. Qed.

Lemma decode_crlf noise : decode (CRLF_bytes ++ noise) = CRLF ++ decode noise.
Proof. reflexivity. Qed.

Lemma decode_nonempty b t : decode (b :: t) <> [].
Proof.
  unfold decode. simpl.
  destruct (utf8_head (Byte.to_N b) t) as [[cp j]|]; discriminate.
Qed.

(** A terminator followed by more bytes: the whole buffer is dropped. *)
Lemma frame_text_noise p noise :
  noise <> [] -> SCPI.frame_text (p ++ CRLF_bytes ++ noise) = [].
Proof.
  intros Hn. unfold SCPI.frame_text.
  rewrite decode_app by reflexivity. rewrite decode_crlf.
  pose proof (find_le (decode p) CRLF (decode noise)) as Hf.
  destruct noise as [|b t]; [congruence|].
  pose proof (decode_nonempty b t) as Hd.
  destruct (decode (b :: t)) as [|c r] eqn:E; [congruence|].
  match goal with |- (if ?c then _ else _) = _ => destruct c eqn:Ec end;
    [|reflexivity].
  apply Z.eqb_eq in Ec. rewrite Ec in Hf. unfold len in Hf.
  repeat rewrite length_app in Hf. simpl length in Hf. lia.
Qed.

(** The empty buffer gives the empty text. *)
Lemma frame_text_nil : SCPI.frame_text [] = [].
Proof. reflexivity. Qed.

(** ** The loop of [readdata] *)

Lemma acc_shift c m : acc c (S m) = c 0%nat ++ acc (shift c) m.
Proof.
  induction m as [|m IH]; [simpl; rewrite app_nil_r; reflexivity|].
  change (acc c (S (S m))) with (acc c (S m) ++ c (S m)).
  rewrite IH, <- app_assoc. reflexivity.
Qed.

Lemma empties_shift c m :
  empties c (S m) =
  ((if is_nil (c 0%nat) then 1 else 0) + empties (shift c) m)%nat.
Proof.
  induction m as [|m IH]; [simpl; destruct (is_nil (c 0%nat)); reflexivity|].
  change (empties c (S (S m)))
    with (if is_nil (c (S m)) then S (empties c (S m)) else empties c (S m)).
  change (empties (shift c) (S m))
    with (if is_nil (c (S m)) then S (empties (shift c) m)
          else empties (shift c) m).
  rewrite IH. destruct (is_nil (c (S m))), (is_nil (c 0%nat)); lia.
Qed.

Lemma read_events_shift c m :
  read_events c (S m) = EvRead 64 (c 0%nat) :: read_events (shift c) m.
Proof.
  unfold read_events. simpl. f_equal.
  rewrite <- seq_shift, map_map. reflexivity.
Qed.

Lemma len_pos_nil {A} (l : list A) : (len l >? 0)%Z = negb (is_nil l).
Proof. destruct l; reflexivity. Qed.

(** One turn of the loop. *)
Lemma readdata_loop_step dev fuel buf n w :
  SCPI.readdata_loop dev (S fuel) buf n w =
  let data := rx dev (reads w) in
  let w' := mkWorld (S (reads w)) (log w ++ [EvRead 64 data]) in
  if is_nil data then
    if (n + 1 >? 2)%Z then Some (Ok [], w')
    else SCPI.readdata_loop dev fuel buf (n + 1) w'
  else if ends_crlfb (buf ++ data) then Some (Ok (buf ++ data), w')
       else SCPI.readdata_loop dev fuel (buf ++ data) n w'.
Proof.
  simpl SCPI.readdata_loop. unfold bind, Serial_read. cbv zeta.
  rewrite len_pos_nil. unfold ends_crlfb.
  destruct (is_nil (rx dev (reads w))); simpl negb; cbv iota.
  - destruct (n + 1 >? 2)%Z; reflexivity.
  - match goal with |- context [if ?b then ret _ else _] => destruct b end;
      reflexivity.
Qed.

Lemma stops_shift c buf n k :
  stops c buf n (S k) =
  stops (shift c) (buf ++ c 0%nat)
        (if is_nil (c 0%nat) then n + 1 else n)%Z k.
Proof.
  unfold stops. rewrite acc_shift, empties_shift, app_assoc.
  change (shift c k) with (c (S k)).
  destruct (is_nil (c (S k))); [|reflexivity].
  destruct (is_nil (c 0%nat)); f_equal; lia.
Qed.

Lemma loop_result_shift c buf k :
  loop_result c buf (S k) = loop_result (shift c) (buf ++ c 0%nat) k.
Proof.
  unfold loop_result. rewrite acc_shift, app_assoc.
  change (shift c k) with (c (S k)). reflexivity.
Qed.

Lemma nil_is_nil {A} (l : list A) : is_nil l = true -> l = [].
Proof. destruct l; [reflexivity | discriminate]. Qed.

(** The loop leaves at the first read at which it stops, with the reads
    up to there logged, whatever fuel is left. *)
Lemma loop_exit k : forall dev fuel buf n w c,
  (forall j, c j = rx dev (reads w + j)) ->
  (forall j, (j < k)%nat -> stops c buf n j = false) ->
  stops c buf n k = true ->
  (k < fuel)%nat ->
  SCPI.readdata_loop dev fuel buf n w =
  Some (Ok (loop_result c buf k),
        mkWorld (reads w + S k) (log w ++ read_events c (S k))).
Proof.
  induction k as [|k IH]; intros dev fuel buf n w c Hc Hno Hstop Hfuel;
    (destruct fuel as [|fuel]; [lia|]); rewrite readdata_loop_step; cbv zeta;
    pose proof (Hc 0%nat) as H0; rewrite Nat.add_0_r in H0; rewrite <- H0.
  - unfold stops, loop_result in *. simpl acc in *. simpl empties in *.
    replace (reads w + 1)%nat with (S (reads w)) by lia.
    destruct (is_nil (c 0%nat)) eqn:E.
    + replace (n + 1 >? 2)%Z with true by (rewrite <- Hstop; f_equal; lia).
      reflexivity.
    + rewrite Hstop. reflexivity.
  - pose proof (Hno 0%nat ltac:(lia)) as Hs0.
    assert (Hc' : forall j, shift c j =
                  rx dev (reads (mkWorld (S (reads w))
                                   (log w ++ [EvRead 64 (c 0%nat)])) + j)).
    { intros j. unfold shift. rewrite Hc. simpl. f_equal. lia. }
    assert (Hno' : forall j, (j < k)%nat ->
              stops (shift c) (buf ++ c 0%nat)
                    (if is_nil (c 0%nat) then n + 1 else n)%Z j = false).
    { intros j Hj. rewrite <- stops_shift. apply Hno. lia. }
    rewrite stops_shift in Hstop.
    rewrite loop_result_shift, read_events_shift.
    unfold stops in Hs0. simpl acc in Hs0. simpl empties in Hs0.
    destruct (is_nil (c 0%nat)) eqn:E.
    + replace (n + 1 >? 2)%Z with false by (rewrite <- Hs0; f_equal; lia).
      apply nil_is_nil in E. rewrite E in *. rewrite app_nil_r in *.
      rewrite (IH dev fuel buf (n + 1)%Z _ (shift c) Hc' Hno' Hstop)
        by lia.
      simpl. rewrite <- app_assoc. repeat f_equal. lia.
    + rewrite Hs0.
      rewrite (IH dev fuel (buf ++ c 0%nat) n _ (shift c) Hc' Hno' Hstop)
        by lia.
      simpl. rewrite <- app_assoc. repeat f_equal. lia.
Qed.

(** It uses up any fuel given before that read. *)
Lemma loop_none fuel : forall dev buf n w c,
  (forall j, c j = rx dev (reads w + j)) ->
  (forall j, (j < fuel)%nat -> stops c buf n j = false) ->
  SCPI.readdata_loop dev fuel buf n w = None.
Proof.
  induction fuel as [|fuel IH]; intros dev buf n w c Hc Hno; [reflexivity|].
  rewrite readdata_loop_step; cbv zeta.
  pose proof (Hc 0%nat) as H0; rewrite Nat.add_0_r in H0; rewrite <- H0.
  pose proof (Hno 0%nat ltac:(lia)) as Hs0.
  assert (Hc' : forall j, shift c j =
                rx dev (reads (mkWorld (S (reads w))
                                 (log w ++ [EvRead 64 (c 0%nat)])) + j)).
  { intros j. unfold shift. rewrite Hc. simpl. f_equal. lia. }
  assert (Hno' : forall j, (j < fuel)%nat ->
            stops (shift c) (buf ++ c 0%nat)
                  (if is_nil (c 0%nat) then n + 1 else n)%Z j = false).
  { intros j Hj. rewrite <- stops_shift. apply Hno. lia. }
  unfold stops in Hs0. simpl acc in Hs0. simpl empties in Hs0.
  destruct (is_nil (c 0%nat)) eqn:E.
  - replace (n + 1 >? 2)%Z with false by (rewrite <- Hs0; f_equal; lia).
    apply nil_is_nil in E. rewrite E in *. rewrite app_nil_r in *.
    apply (IH dev buf (n + 1)%Z _ (shift c) Hc' Hno').
  - rewrite Hs0. apply (IH dev (buf ++ c 0%nat) n _ (shift c) Hc' Hno').
Qed.

Lemma first_true (f : nat -> bool) k :
  f k = true ->
  exists j, (j <= k)%nat /\ f j = true
            /\ forall i, (i < j)%nat -> f i = false.
Proof.
  induction k as [k IH] using lt_wf_ind. intros Hk.
  destruct (existsb f (seq 0 k)) eqn:E.
  - apply existsb_exists in E. destruct E as [i [Hi Hfi]].
    apply in_seq in Hi. destruct (IH i ltac:(lia) Hfi) as [j [Hj1 Hj2]].
    exists j. split; [lia | exact Hj2].
  - exists k. split; [lia | split; [exact Hk|]].
    intros i Hi. destruct (f i) eqn:Ei; [|reflexivity].
    assert (existsb f (seq 0 k) = true)
      by (apply existsb_exists; exists i; split;
          [apply in_seq; lia | exact Ei]).
    congruence.
Qed.

(** What a finished loop tells. *)
Lemma loop_some dev fuel buf n w r :
  SCPI.readdata_loop dev fuel buf n w = Some r ->
  exists k, (k < fuel)%nat
    /\ (forall j, (j < k)%nat -> stops (chunks dev w) buf n j = false)
    /\ stops (chunks dev w) buf n k = true
    /\ r = (Ok (loop_result (chunks dev w) buf k),
            mkWorld (reads w + S k)
                    (log w ++ read_events (chunks dev w) (S k))).
Proof.
  intros Hr.
  destruct (existsb (stops (chunks dev w) buf n) (seq 0 fuel)) eqn:E.
  - apply existsb_exists in E. destruct E as [i [Hi Hsi]].
    apply in_seq in Hi.
    destruct (first_true _ i Hsi) as [k [Hk [Hsk Hno]]].
    exists k. split; [lia|]. split; [exact Hno|]. split; [exact Hsk|].
    rewrite (loop_exit k dev fuel buf n w (chunks dev w)) in Hr;
      [congruence | reflexivity | exact Hno | exact Hsk | lia].
  - rewrite (loop_none fuel dev buf n w (chunks dev w)) in Hr;
      [discriminate | reflexivity |].
    intros j Hj. destruct (stops (chunks dev w) buf n j) eqn:Ej;
      [|reflexivity].
    assert (existsb (stops (chunks dev w) buf n) (seq 0 fuel) = true)
      by (apply existsb_exists; exists j; split;
          [apply in_seq; lia | exact Ej]).
    congruence.
Qed.

(** ** [readdata] *)

Lemma readdata_some dev fuel w r :
  SCPI.readdata dev fuel w = Some r <->
  exists buf w', SCPI.readdata_loop dev fuel [] 0%Z w = Some (Ok buf, w')
                 /\ r = (Ok (SCPI.frame_text buf), w').
Proof.
  unfold SCPI.readdata, bind, ret. split.
  - destruct (SCPI.readdata_loop dev fuel [] 0%Z w) as [[[buf|e] w']|] eqn:E;
      intros H; try discriminate.
    + exists buf, w'. split; [reflexivity | congruence].
    + apply loop_some in E. destruct E as [k [_ [_ [_ E]]]]. discriminate.
  - intros [buf [w' [-> ->]]]. reflexivity.
Qed.

Lemma readdata_none dev fuel w :
  SCPI.readdata_loop dev fuel [] 0%Z w = None ->
  SCPI.readdata dev fuel w = None.
Proof. unfold SCPI.readdata, bind. intros ->. reflexivity. Qed.

Lemma empties_le c m : (empties c m <= empties c (S m))%nat.
Proof. simpl. destruct (is_nil (c m)); lia. Qed.

Lemma empties_mono c k m : (k <= m)%nat -> (empties c k <= empties c m)%nat.
Proof.
  induction 1 as [|m _ IH]; [lia|]. pose proof (empties_le c m). lia.
Qed.

Lemma acc_le c k m : (k <= m)%nat -> exists rest, acc c m = acc c k ++ rest.
Proof.
  induction 1 as [|m _ [rest IH]].
  - exists []. rewrite app_nil_r. reflexivity.
  - exists (rest ++ c m). simpl. rewrite IH, app_assoc. reflexivity.
Qed.

Lemma not_ends_crlf_nil : ~ ends_crlf [].
Proof. intros [p Hp]. destruct p; discriminate. Qed.

(** The loop stops at some read exactly when some prefix of the replies
    ends with the terminator or holds three empty chunks. *)
Lemma stops_exists c :
  (exists k, stops c [] 0%Z k = true) <->
  (exists m, ends_crlf (acc c m) \/ (3 <= empties c m)%nat).
Proof.
  split.
  - intros [k Hk]. exists (S k). unfold stops in Hk.
    destruct (is_nil (c k)).
    + right. apply Z.gtb_lt in Hk. lia.
    + left. apply ends_crlfb_spec. exact Hk.
  - intros [m Hm]. induction m as [|m IH].
    + destruct Hm as [Hm | Hm]; [|simpl in Hm; lia].
      destruct (not_ends_crlf_nil Hm).
    + unfold stops in *. destruct (is_nil (c m)) eqn:E.
      * destruct Hm as [Hm | Hm].
        -- apply IH. left. simpl in Hm. apply nil_is_nil in E.
           rewrite E, app_nil_r in Hm. exact Hm.
        -- exists m. rewrite E. apply Z.gtb_lt. lia.
      * destruct Hm as [Hm | Hm].
        -- exists m. rewrite E. apply ends_crlfb_spec. exact Hm.
        -- apply IH. right. simpl in Hm. rewrite E in Hm. exact Hm.
Qed.

Lemma readdata_returns_iff dev w :
  (exists fuel r, SCPI.readdata dev fuel w = Some r) <->
  (exists m, ends_crlf (acc (chunks dev w) m)
             \/ (3 <= empties (chunks dev w) m)%nat).
Proof.
  rewrite <- stops_exists. split.
  - intros [fuel [r Hr]]. apply readdata_some in Hr.
    destruct Hr as [buf [w' [Hl _]]]. apply loop_some in Hl.
    destruct Hl as [k [_ [_ [Hk _]]]]. exists k. exact Hk.
  - intros [k Hk]. destruct (first_true _ k Hk) as [j [_ [Hj Hno]]].
    exists (S j). eexists. apply readdata_some. do 2 eexists. split.
    + apply (loop_exit j dev (S j) [] 0%Z w (chunks dev w));
        [reflexivity | exact Hno | exact Hj | lia].
    + reflexivity.
Qed.

(** C10. [readdata] returns, given fuel enough, exactly when the replies
    at some point make the buffer end with CR LF or hold three empty reads
    in total; when every read brings bytes and the buffer never ends with
    CR LF, no amount of fuel makes it return. *)
Theorem readdata_termination dev w :
  ((exists fuel r, SCPI.readdata dev fuel w = Some r) <->
   (exists m, ends_crlf (acc (chunks dev w) m)
              \/ (3 <= empties (chunks dev w) m)%nat))
  /\ ((forall k, chunks dev w k <> []) ->
      (forall m, ~ ends_crlf (acc (chunks dev w) m)) ->
      forall fuel, SCPI.readdata dev fuel w = None).
Proof.
  split; [apply readdata_returns_iff|].
  intros Hne Hno fuel. apply readdata_none.
  apply (loop_none fuel dev [] 0%Z w (chunks dev w)); [reflexivity|].
  intros j _. unfold stops. specialize (Hne j).
  destruct (chunks dev w j) as [|b t] eqn:E; [congruence|]. simpl is_nil.
  destruct (ends_crlfb ([] ++ acc (chunks dev w) (S j))) eqn:E2;
    [|reflexivity].
  apply ends_crlfb_spec in E2. destruct (Hno (S j) E2).
Qed.

Lemma acc_chatter m : acc (chunks chatter w0) m = repeat x41 m.
Proof.
  induction m as [|m IH]; [reflexivity|]. simpl acc. rewrite IH.
  change (chunks chatter w0 m) with [x41]. symmetry.
  change (S m) with (1 + m)%nat. rewrite Nat.add_comm. apply repeat_app.
Qed.

Lemma chatter_never_ends m : ~ ends_crlf (acc (chunks chatter w0) m).
Proof.
  rewrite acc_chatter. intros [p Hp].
  assert (Hin : In x0a (repeat x41 m))
    by (rewrite Hp; apply in_or_app; right; simpl; auto).
  apply repeat_spec in Hin. discriminate.
Qed.

Lemma readdata_termination_witness :
  (forall k, chunks chatter w0 k <> [])
  /\ (forall m, ~ ends_crlf (acc (chunks chatter w0) m))
  /\ forall fuel, SCPI.readdata chatter fuel w0 = None.
Proof.
  split; [intros k; discriminate|].
  split; [exact chatter_never_ends|].
  apply (proj2 (readdata_termination chatter w0)).
  - intros k; discriminate.
  - exact chatter_never_ends.
Defined.

Lemma empties_before_stop c m :
  (forall j, (j < m)%nat -> stops c [] 0%Z j = false) ->
  (empties c m <= 2)%nat.
Proof.
  induction m as [|m IH]; intros Hno; [simpl; lia|].
  simpl. destruct (is_nil (c m)) eqn:E.
  - pose proof (Hno m ltac:(lia)) as Hm. unfold stops in Hm.
    rewrite E in Hm. simpl empties in Hm. rewrite E in Hm.
    rewrite Z.gtb_ltb in Hm. apply Z.ltb_ge in Hm. lia.
  - apply IH. intros j Hj. apply Hno. lia.
Qed.

(** On a silent line the call makes three reads and returns the empty
    text. *)
Lemma readdata_silent dev w :
  (forall k, chunks dev w k = []) ->
  forall fuel,
    SCPI.readdata dev fuel w =
    if (fuel <? 3)%nat then None
    else Some (Ok [], mkWorld (reads w + 3)
                        (log w ++ [EvRead 64 []; EvRead 64 [];
                                   EvRead 64 []])).
Proof.
  intros Hsil fuel.
  assert (Hs : forall k, stops (chunks dev w) [] 0%Z k = (2 <=? k)%nat).
  { intros k. unfold stops. rewrite (Hsil k). simpl is_nil.
    assert (He : forall m, empties (chunks dev w) m = m).
    { induction m as [|m IHm]; [reflexivity|]. simpl.
      rewrite (Hsil m). simpl. congruence. }
    rewrite He. destruct (Nat.leb_spec 2 k).
    - apply Z.gtb_lt. lia.
    - rewrite Z.gtb_ltb. apply Z.ltb_ge. lia. }
  destruct (Nat.ltb_spec fuel 3) as [Hlt | Hge].
  + apply readdata_none.
    apply (loop_none fuel dev [] 0%Z w (chunks dev w)); [reflexivity|].
    intros j Hj. rewrite Hs. apply Nat.leb_gt. lia.
  + apply readdata_some. exists [], (mkWorld (reads w + 3)
      (log w ++ [EvRead 64 []; EvRead 64 []; EvRead 64 []])).
    split; [|reflexivity].
    rewrite (loop_exit 2 dev fuel [] 0%Z w (chunks dev w));
      [ | reflexivity | | rewrite Hs; reflexivity | lia].
    * unfold loop_result, read_events. simpl map.
      rewrite !Hsil. reflexivity.
    * intros j Hj. rewrite Hs. apply Nat.leb_gt. lia.
Qed.

(** C4, as the code has it.  The counter of [readdata] counts the empty
    reads of the whole call, and a read that brings bytes leaves it as it
    is.  A call that returns has read [m + 1] chunks and either gave up at
    an empty read, the third in total, with the buffer emptied, or stopped
    at a read with bytes that made the buffer end with CR LF, with at most
    two empty reads before.  On a line that stays silent the call returns
    the empty text after exactly three reads. *)
Theorem readdata_idle_limit dev w :
  (forall fuel buf w',
      SCPI.readdata_loop dev fuel [] 0%Z w = Some (Ok buf, w') ->
      exists m,
        reads w' = (reads w + S m)%nat
        /\ log w' = log w ++ read_events (chunks dev w) (S m)
        /\ ((chunks dev w m = [] /\ buf = []
             /\ empties (chunks dev w) (S m) = 3%nat)
            \/ (chunks dev w m <> [] /\ buf = acc (chunks dev w) (S m)
                /\ ends_crlf buf
                /\ (empties (chunks dev w) (S m) <= 2)%nat)))
  /\ ((forall k, chunks dev w k = []) ->
      forall fuel,
        SCPI.readdata dev fuel w =
        if (fuel <? 3)%nat then None
        else Some (Ok [], mkWorld (reads w + 3)
                            (log w ++ [EvRead 64 []; EvRead 64 [];
                                       EvRead 64 []]))).
Proof.
  split.
  - intros fuel buf w' H. apply loop_some in H.
    destruct H as [m [_ [Hno [Hstop Heq]]]]. injection Heq as -> ->.
    exists m. split; [reflexivity|]. split; [reflexivity|].
    pose proof (empties_before_stop _ m Hno) as Hle.
    unfold stops, loop_result in *. simpl empties in *.
    destruct (chunks dev w m) as [|b t] eqn:E; simpl is_nil in *.
    + left. split; [reflexivity|]. split; [reflexivity|].
      apply Z.gtb_lt in Hstop. lia.
    + right. split; [discriminate|]. split; [reflexivity|].
      split; [apply ends_crlfb_spec; exact Hstop | exact Hle].
  - apply readdata_silent.
Qed.

Lemma readdata_idle_limit_witness :
  (forall k, chunks silent w0 k = [])
  /\ SCPI.readdata silent 3 w0 =
     Some (Ok [], mkWorld 3 [EvRead 64 []; EvRead 64 []; EvRead 64 []])
  /\ SCPI.readdata silent 2 w0 = None
  /\ SCPI.readdata_loop broken_idle_line 10 [] 0%Z w0 =
     Some (Ok [], mkWorld 4 [EvRead 64 []; EvRead 64 [x41];
                             EvRead 64 []; EvRead 64 []])
  /\ exists m,
       4%nat = (0 + S m)%nat
       /\ [EvRead 64 []; EvRead 64 [x41]; EvRead 64 []; EvRead 64 []]
          = [] ++ read_events (chunks broken_idle_line w0) (S m)
       /\ ((chunks broken_idle_line w0 m = [] /\ @nil byte = []
            /\ empties (chunks broken_idle_line w0) (S m) = 3%nat)
           \/ (chunks broken_idle_line w0 m <> []
               /\ [] = acc (chunks broken_idle_line w0) (S m)
               /\ ends_crlf []
               /\ (empties (chunks broken_idle_line w0) (S m) <= 2)%nat)).
Proof.
  assert (H : forall k, chunks silent w0 k = [])
    by (intros [|[|k]]; reflexivity).
  split; [exact H|].
  split; [exact (proj2 (readdata_idle_limit silent w0) H 3%nat)|].
  split; [exact (proj2 (readdata_idle_limit silent w0) H 2%nat)|].
  split; [reflexivity|].
  exact (proj1 (readdata_idle_limit broken_idle_line w0) 10%nat [] _
           eq_refl).
Defined.

(** C4, as the claim has it, fails.  The line brings nothing twice, then
    the letter A, then nothing: the call gives up at the fourth read and
    drops the letter, though no more than two empty reads ever came in a
    row; the three it counted are those of the whole call. *)
Lemma idle_count_is_not_reset :
  SCPI.readdata broken_idle_line 10 w0 =
    Some (Ok [], mkWorld 4 [EvRead 64 []; EvRead 64 [x41];
                            EvRead 64 []; EvRead 64 []])
  /\ consecutive_empties (chunks broken_idle_line w0) 1 = 1%nat
  /\ consecutive_empties (chunks broken_idle_line w0) 2 = 0%nat
  /\ consecutive_empties (chunks broken_idle_line w0) 3 = 1%nat
  /\ consecutive_empties (chunks broken_idle_line w0) 4 = 2%nat
  /\ empties (chunks broken_idle_line w0) 4 = 3%nat.
Proof. repeat split. Qed.

(** Before a chunk with no terminator and fewer than three empty reads
    in front of it, the loop does not stop. *)
Lemma no_stop_before c k :
  (forall j, (j < k)%nat -> ~ ends_crlf (acc c (S j))) ->
  (empties c k < 3)%nat ->
  forall j, (j < k)%nat -> stops c [] 0%Z j = false.
Proof.
  intros Hno He j Hj. unfold stops. destruct (is_nil (c j)).
  - pose proof (empties_mono c (S j) k ltac:(lia)).
    rewrite Z.gtb_ltb. apply Z.ltb_ge. lia.
  - destruct (ends_crlfb ([] ++ acc c (S j))) eqn:E; [|reflexivity].
    apply ends_crlfb_spec in E. destruct (Hno j Hj E).
Qed.

(** Behind a terminator, the buffer ends with CR LF exactly when the
    noise does. *)
Lemma ends_crlf_behind x noise :
  noise <> [] ->
  (ends_crlf (x ++ CRLF_bytes ++ noise) <-> ends_crlf noise).
Proof.
  intros Hn. split.
  - intros [p Hp].
    destruct (exists_last Hn) as [n1 [b Hb]]. subst noise.
    change CRLF_bytes with ([x0d] ++ [x0a]) in Hp at 2.
    rewrite !app_assoc in Hp. apply app_inj_tail in Hp.
    destruct Hp as [Hp ->]. rewrite <- !app_assoc in Hp.
    destruct n1 as [|c0 n1'] using rev_ind.
    + exfalso. simpl in Hp.
      change (x ++ [x0d; x0a]) with (x ++ [x0d] ++ [x0a]) in Hp.
      rewrite app_assoc in Hp. apply app_inj_tail in Hp.
      destruct Hp as [_ Hp]. discriminate.
    + clear IHn1'. rewrite !app_assoc in Hp. apply app_inj_tail in Hp.
      destruct Hp as [_ ->]. exists n1'. rewrite <- app_assoc. reflexivity.
  - intros [p ->]. exists (x ++ CRLF_bytes ++ p).
    rewrite <- !app_assoc. reflexivity.
Qed.

(** C3, as the code has it.  The replies hold no terminator and fewer than
    three empty reads before the k-th chunk, and that chunk brings a
    payload, CR LF and then more bytes.  Then [readdata] never returns the
    payload: whenever it returns, it has read that chunk and returns the
    empty text, the payload dropped with the noise, and it does return if
    the line is silent from then on.  If the noise itself ends with CR LF,
    it stops at that very read; if not, it reads on beyond it. *)
Theorem readdata_drops_frame_with_noise dev w k payload noise :
  (forall j, (j < k)%nat -> ~ ends_crlf (acc (chunks dev w) (S j))) ->
  (empties (chunks dev w) k < 3)%nat ->
  chunks dev w k = payload ++ CRLF_bytes ++ noise ->
  noise <> [] ->
  (forall fuel r w', SCPI.readdata dev fuel w = Some (r, w') ->
     r = Ok [] /\ (reads w + k < reads w')%nat)
  /\ ((forall j, (k < j)%nat -> chunks dev w j = []) ->
      exists fuel w', SCPI.readdata dev fuel w = Some (Ok [], w'))
  /\ (ends_crlf noise ->
      forall fuel, (k < fuel)%nat ->
        SCPI.readdata dev fuel w =
        Some (Ok [], mkWorld (reads w + S k)
                             (log w ++ read_events (chunks dev w) (S k))))
  /\ (~ ends_crlf noise ->
      forall fuel r w', SCPI.readdata dev fuel w = Some (r, w') ->
        (reads w + S k < reads w')%nat).
Proof.
  intros Hno He Hk Hnoise.
  pose proof (no_stop_before _ k Hno He) as Hbefore.
  assert (Hacc : acc (chunks dev w) (S k)
                 = (acc (chunks dev w) k ++ payload) ++ CRLF_bytes ++ noise).
  { simpl acc. rewrite Hk, <- app_assoc. reflexivity. }
  assert (Hlast : is_nil (chunks dev w k) = false).
  { rewrite Hk. destruct payload; reflexivity. }
  assert (Hexit : forall fuel buf w', 
            SCPI.readdata_loop dev fuel [] 0%Z w = Some (Ok buf, w') ->
            exists m, (k <= m)%nat /\ stops (chunks dev w) [] 0%Z m = true
                      /\ buf = loop_result (chunks dev w) [] m
                      /\ w' = mkWorld (reads w + S m)
                                (log w ++ read_events (chunks dev w) (S m))).
  { intros fuel buf w' Hl. apply loop_some in Hl.
    destruct Hl as [m [_ [_ [Hstop Heq]]]]. injection Heq as -> ->.
    exists m. split; [|auto].
    destruct (Nat.le_gt_cases k m) as [H | H]; [exact H | exfalso].
    rewrite (Hbefore m H) in Hstop. discriminate. }
  assert (P1 : forall fuel r w', SCPI.readdata dev fuel w = Some (r, w') ->
                r = Ok [] /\ (reads w + k < reads w')%nat).
  { intros fuel r w' H. apply readdata_some in H.
    destruct H as [buf [w1 [Hl Hr]]]. injection Hr as -> ->.
    destruct (Hexit _ _ _ Hl) as [m [Hkm [_ [-> ->]]]].
    split; [|simpl; lia].
    unfold loop_result. destruct (is_nil (chunks dev w m)); [reflexivity|].
    destruct (acc_le (chunks dev w) (S k) (S m) ltac:(lia)) as [rest Hrest].
    rewrite app_nil_l, Hrest, Hacc.
    replace (((acc (chunks dev w) k ++ payload) ++ CRLF_bytes ++ noise)
             ++ rest)
      with ((acc (chunks dev w) k ++ payload) ++ CRLF_bytes ++ (noise ++ rest))
      by (repeat rewrite <- app_assoc; reflexivity).
    rewrite frame_text_noise; [reflexivity|].
    destruct noise; [congruence | discriminate]. }
  split; [exact P1|]. split; [|split].
  - intros Hsil.
    destruct (proj2 (readdata_returns_iff dev w)) as [fuel [[r w'] H]].
    { exists (3 + S k)%nat. right.
      assert (Hg : forall i, (i <= empties (chunks dev w) (i + S k))%nat).
      { induction i as [|i IHi]; [lia|].
        change (empties (chunks dev w) (S i + S k))
          with (if is_nil (chunks dev w (i + S k))
                then S (empties (chunks dev w) (i + S k))
                else empties (chunks dev w) (i + S k)).
        rewrite (Hsil (i + S k)%nat ltac:(lia)). cbn [is_nil]. lia. }
      apply Hg. }
    exists fuel, w'. destruct (P1 fuel r w' H) as [-> _]. exact H.
  - intros Hends fuel Hfuel. apply readdata_some.
    exists (acc (chunks dev w) (S k)). eexists. split.
    + rewrite (loop_exit k dev fuel [] 0%Z w (chunks dev w));
        [ | reflexivity | exact Hbefore | | exact Hfuel].
      * unfold loop_result. rewrite Hlast. reflexivity.
      * unfold stops. rewrite Hlast, app_nil_l, Hacc.
        apply ends_crlfb_spec. apply ends_crlf_behind; assumption.
    + rewrite Hacc, frame_text_noise by assumption. reflexivity.
  - intros Hnot fuel r w' H. apply readdata_some in H.
    destruct H as [buf [w1 [Hl Hr]]]. injection Hr as _ ->.
    destruct (Hexit _ _ _ Hl) as [m [Hkm [Hstop [_ ->]]]].
    assert (m <> k).
    { intros ->. unfold stops in Hstop. rewrite Hlast, app_nil_l, Hacc in Hstop.
      apply ends_crlfb_spec in Hstop.
      apply ends_crlf_behind in Hstop; [exact (Hnot Hstop) | assumption]. }
    simpl. lia.
Qed.

Lemma noise_x_open : ~ ends_crlf (bytes_of "X").
Proof.
  intros [p Hp]. destruct p as [|? [|? p]]; discriminate Hp.
Qed.

Lemma readdata_drops_frame_with_noise_witness :
  chunks noisy_line w0 0 = bytes_of "AB" ++ CRLF_bytes ++ bytes_of "X"
  /\ ~ ends_crlf (bytes_of "X")
  /\ (forall fuel r w', SCPI.readdata noisy_line fuel w0 = Some (r, w') ->
        r = Ok [] /\ (reads w0 + 0 < reads w')%nat)
  /\ (exists fuel w', SCPI.readdata noisy_line fuel w0 = Some (Ok [], w'))
  /\ (forall fuel r w', SCPI.readdata noisy_line fuel w0 = Some (r, w') ->
        (reads w0 + 1 < reads w')%nat)
  /\ chunks two_frames_line w0 0
     = bytes_of "AB" ++ CRLF_bytes ++ (bytes_of "C" ++ CRLF_bytes)
  /\ ends_crlf (bytes_of "C" ++ CRLF_bytes)
  /\ SCPI.readdata two_frames_line 1 w0 =
     Some (Ok [], mkWorld (reads w0 + 1)
                    (log w0 ++ read_events (chunks two_frames_line w0) 1)).
Proof.
  split; [reflexivity|]. split; [exact noise_x_open|].
  destruct (readdata_drops_frame_with_noise noisy_line w0 0
              (bytes_of "AB") (bytes_of "X")) as [H1 [H2 [_ H4]]].
  - intros j Hj. inversion Hj.
  - simpl. lia.
  - reflexivity.
  - discriminate.
  - split; [exact H1|]. split.
    + apply H2.
      intros [|[|j]] Hj; [inversion Hj | reflexivity | reflexivity].
    + split; [exact (H4 noise_x_open)|].
      split; [reflexivity|].
      assert (He : ends_crlf (bytes_of "C" ++ CRLF_bytes))
        by (exists (bytes_of "C"); reflexivity).
      split; [exact He|].
      destruct (readdata_drops_frame_with_noise two_frames_line w0 0
                  (bytes_of "AB") (bytes_of "C" ++ CRLF_bytes))
        as [_ [_ [H3 _]]].
      * intros j Hj. inversion Hj.
      * simpl. lia.
      * reflexivity.
      * discriminate.
      * exact (H3 He 1%nat ltac:(lia)).
Defined.

(** C3, as the claim has it, fails.  One read brings the payload AB, the
    terminator and a further byte, and nothing follows: [readdata] reads
    on to its third empty read and returns the empty text, neither the
    bytes up to the terminator nor the payload. *)
Lemma noise_after_terminator_loses_frame :
  SCPI.readdata noisy_line 10 w0 =
    Some (Ok [], mkWorld 4 [EvRead 64 (bytes_of "AB" ++ CRLF_bytes
                                       ++ bytes_of "X");
                            EvRead 64 []; EvRead 64 []; EvRead 64 []])
  /\ decode (bytes_of "AB" ++ CRLF_bytes) = str "AB" ++ CRLF
  /\ SCPI.readdata (script [bytes_of "AB" ++ CRLF_bytes]) 10 w0 =
       Some (Ok (str "AB"),
             mkWorld 1 [EvRead 64 (bytes_of "AB" ++ CRLF_bytes)]).
Proof. repeat split. Qed.

(** C9.  A text returned by [readdata] is empty, or holds no CR LF and has
    no white space at either end; and when the decoded buffer holds a
    CR LF with anything behind it, the text returned is the empty one. *)
Theorem readdata_text_clean dev fuel w :
  (forall res w', SCPI.readdata dev fuel w = Some (Ok res, w') ->
     res = []
     \/ (~ occurs CRLF res /\ no_leading isspace res
         /\ no_trailing isspace res))
  /\ (forall buf w' a b,
        SCPI.readdata_loop dev fuel [] 0%Z w = Some (Ok buf, w') ->
        decode buf = a ++ CRLF ++ b -> b <> [] ->
        SCPI.readdata dev fuel w = Some (Ok [], w')).
Proof.
  split.
  - intros res w' H. apply readdata_some in H.
    destruct H as [buf [w1 [_ Hr]]]. injection Hr as -> ->.
    apply frame_text_clean.
  - intros buf w' a b Hl Hd Hb. apply readdata_some.
    exists buf, w'. split; [exact Hl|]. f_equal. f_equal.
    unfold SCPI.frame_text. cbv zeta.
    pose proof (find_le a CRLF b) as Hf. rewrite <- Hd in Hf.
    destruct (find (decode buf) CRLF =? len (decode buf) - 2)%Z eqn:E;
      [|reflexivity].
    apply Z.eqb_eq in E. rewrite E, Hd in Hf. unfold len in Hf.
    repeat rewrite length_app in Hf. simpl length in Hf.
    destruct b; [congruence | simpl length in Hf; lia].
Qed.

Lemma readdata_text_clean_witness :
  SCPI.readdata volt_line 5 w0 =
    Some (Ok (str "VOLT"),
          mkWorld 2 [EvRead 64 (bytes_of " VOLT"); EvRead 64 CRLF_bytes])
  /\ (str "VOLT" = []
      \/ (~ occurs CRLF (str "VOLT") /\ no_leading isspace (str "VOLT")
          /\ no_trailing isspace (str "VOLT")))
  /\ SCPI.readdata two_frames_line 5 w0 =
       Some (Ok [], mkWorld 1 [EvRead 64 (bytes_of "AB" ++ CRLF_bytes
                                          ++ bytes_of "C" ++ CRLF_bytes)]).
Proof.
  assert (H1 : SCPI.readdata volt_line 5 w0 =
    Some (Ok (str "VOLT"),
          mkWorld 2 [EvRead 64 (bytes_of " VOLT"); EvRead 64 CRLF_bytes]))
    by reflexivity.
  split; [exact H1|]. split.
  - exact (proj1 (readdata_text_clean volt_line 5 w0) _ _ H1).
  - apply (proj2 (readdata_text_clean two_frames_line 5 w0)
             (bytes_of "AB" ++ CRLF_bytes ++ bytes_of "C" ++ CRLF_bytes)
             _ (str "AB") (str "C" ++ CRLF)).
    + reflexivity.
    + reflexivity.
    + discriminate.
Defined.

(** ** Fuel

    A call that returned with some fuel returns the same with more. *)

Lemma readdata_loop_mono dev fuel fuel' buf n w r :
  (fuel <= fuel')%nat ->
  SCPI.readdata_loop dev fuel buf n w = Some r ->
  SCPI.readdata_loop dev fuel' buf n w = Some r.
Proof.
  intros Hle H. apply loop_some in H.
  destruct H as [k [Hk [Hno [Hstop ->]]]].
  apply (loop_exit k dev fuel' buf n w (chunks dev w));
    [reflexivity | exact Hno | exact Hstop | lia].
Qed.

Lemma readdata_mono dev fuel fuel' w r :
  (fuel <= fuel')%nat ->
  SCPI.readdata dev fuel w = Some r -> SCPI.readdata dev fuel' w = Some r.
Proof.
  intros Hle H. apply readdata_some in H. destruct H as [buf [w' [Hl ->]]].
  apply readdata_some. exists buf, w'. split; [|reflexivity].
  exact (readdata_loop_mono _ _ _ _ _ _ _ Hle Hl).
Qed.

Lemma sendcmd_mono dev fuel fuel' msg getdata w r :
  (fuel <= fuel')%nat ->
  SCPI.sendcmd dev fuel msg getdata w = Some r ->
  SCPI.sendcmd dev fuel' msg getdata w = Some r.
Proof.
  intros Hle. unfold SCPI.sendcmd.
  destruct (encode_ascii (msg ++ [LF])) as [data|]; [|trivial].
  destruct getdata; [|trivial].
  unfold bind, Serial_write, emit.
  destruct (SCPI.readdata dev fuel _) as [r0|] eqn:E; [|discriminate].
  rewrite (readdata_mono _ _ _ _ _ Hle E). trivial.
Qed.

(** ** [sendcmd] *)

Lemma sendcmd_some dev fuel msg w res w' :
  SCPI.sendcmd dev fuel msg true w = Some (Ok res, w') ->
  exists data s,
    encode_ascii (msg ++ [LF]) = Some data
    /\ res = Some s
    /\ SCPI.readdata dev fuel (written w data) = Some (Ok s, w').
Proof.
  unfold SCPI.sendcmd.
  destruct (encode_ascii (msg ++ [LF])) as [data|]; [|discriminate].
  unfold bind, Serial_write, emit. fold (written w data).
  destruct (SCPI.readdata dev fuel (written w data)) as [[[s|e] w1]|] eqn:E;
    try discriminate.
  intros H. injection H as <- <-. exists data, s. repeat split. exact E.
Qed.

Lemma actions_app l1 l2 : actions (l1 ++ l2) = actions l1 ++ actions l2.
Proof. apply filter_app. Qed.

Lemma actions_read_events c m : actions (read_events c m) = [].
Proof.
  unfold read_events. induction (seq 0 m) as [|k l IH]; [reflexivity|].
  simpl. exact IH.
Qed.

(** A send writes the command once and then only reads. *)
Lemma sendcmd_log dev fuel msg w res w' :
  SCPI.sendcmd dev fuel msg true w = Some (Ok res, w') ->
  exists data, encode_ascii (msg ++ [LF]) = Some data
    /\ actions (log w') = actions (log w) ++ [EvWrite data].
Proof.
  intros H. apply sendcmd_some in H.
  destruct H as [data [s [He [_ Hr]]]]. exists data. split; [exact He|].
  apply readdata_some in Hr. destruct Hr as [buf [w1 [Hl Heq]]].
  injection Heq as _ <-. apply loop_some in Hl.
  destruct Hl as [k [_ [_ [_ Heq]]]]. injection Heq as _ ->.
  simpl log. rewrite !actions_app, actions_read_events, app_nil_r.
  reflexivity.
Qed.

(** A send only moves the line forward. *)
Lemma sendcmd_reads dev fuel msg w res w' :
  SCPI.sendcmd dev fuel msg true w = Some (Ok res, w') ->
  (reads w <= reads w')%nat.
Proof.
  intros H. apply sendcmd_some in H.
  destruct H as [data [s [_ [_ Hr]]]].
  apply readdata_some in Hr. destruct Hr as [buf [w1 [Hl Heq]]].
  injection Heq as _ <-. apply loop_some in Hl.
  destruct Hl as [k [_ [_ [_ Heq]]]]. injection Heq as _ ->.
  simpl. lia.
Qed.

(** ** [get_response] *)

Lemma pystr_eqb_nil s : pystr_eqb s [] = is_nil s.
Proof. destruct s; reflexivity. Qed.

Section Protocol.

Variable F : Type.
Variable float : pystr -> option F.
Variable dev : device.
Variable self : XdmMeter.obj.
Variable scpi : SCPI.obj.
Hypothesis present : XdmMeter.MiniBM self = Some scpi.

(** One turn of the retry loop. *)
Lemma get_response_loop_step fuel cmd Numeric n w :
  XdmMeter.get_response_loop float dev (S fuel) self cmd Numeric n w =
  match SCPI.sendcmd dev fuel cmd true w with
  | None => None
  | Some (Raise e, w1) => Some (Raise e, w1)
  | Some (Ok None, w1) =>
      Some (Raise (if Numeric then TypeError else AttributeError), w1)
  | Some (Ok (Some s), w1) =>
      if is_nil s then
        if (n + 1 >? 5)%Z
        then Some (Ok (XdmMeter.sentinel Numeric), paused w1)
        else XdmMeter.get_response_loop float dev fuel self cmd Numeric
               (n + 1) (paused w1)
      else if Numeric then
        Some (Ok match float s with
                 | Some v => XdmMeter.VFloat v
                 | None => XdmMeter.VInt 0
                 end, w1)
      else Some (Ok (XdmMeter.VStr (XdmMeter.repair s)), w1)
  end.
Proof.
  simpl XdmMeter.get_response_loop. rewrite present. unfold bind at 1.
  destruct (SCPI.sendcmd dev fuel cmd true w) as [[[[s|]|e] w1]|];
    try reflexivity.
  - rewrite pystr_eqb_nil. destruct (is_nil s); simpl negb; cbv iota.
    + unfold bind, sleep, emit. fold (paused w1).
      destruct (n + 1 >? 5)%Z; reflexivity.
    + destruct Numeric; [destruct (float s)|]; reflexivity.
  - destruct Numeric; reflexivity.
Qed.

Lemma get_response_loop_mono fuel : forall fuel' cmd Numeric n w r,
  (fuel <= fuel')%nat ->
  XdmMeter.get_response_loop float dev fuel self cmd Numeric n w = Some r ->
  XdmMeter.get_response_loop float dev fuel' self cmd Numeric n w = Some r.
Proof.
  induction fuel as [|fuel IH]; intros fuel' cmd Numeric n w r Hle H;
    [discriminate|].
  destruct fuel' as [|fuel']; [lia|].
  rewrite get_response_loop_step in *.
  destruct (SCPI.sendcmd dev fuel cmd true w) as [r0|] eqn:E;
    [|discriminate].
  rewrite (sendcmd_mono _ fuel fuel' _ _ _ _ ltac:(lia) E).
  destruct r0 as [[[s|]|e] w1]; try exact H.
  destruct (is_nil s); [|exact H].
  destruct (n + 1 >? 5)%Z; [exact H|].
  apply (IH fuel'); [lia | exact H].
Qed.

(** With every send from the read [r0] on giving the empty line, the
    loop entered with the counter at [6 - j] takes [j] rounds and returns
    the sentinel. *)
Lemma get_response_loop_exhausts cmd Numeric r0 :
  (forall w, (r0 <= reads w)%nat -> exists fuel w',
      SCPI.sendcmd dev fuel cmd true w = Some (Ok (Some []), w')) ->
  forall j n w, (r0 <= reads w)%nat ->
  (1 <= j)%nat -> n = (6 - Z.of_nat j)%Z ->
  exists fuel w' data,
    XdmMeter.get_response_loop float dev fuel self cmd Numeric n w =
      Some (Ok (XdmMeter.sentinel Numeric), w')
    /\ encode_ascii (cmd ++ [LF]) = Some data
    /\ actions (log w') = actions (log w) ++ rounds j data.
Proof.
  intros Hsend. induction j as [|j IH]; intros n w Hw Hj Hn; [lia|].
  destruct (Hsend w Hw) as [f1 [w1 H1]].
  destruct (sendcmd_log _ _ _ _ _ _ H1) as [data [He Hl]].
  pose proof (sendcmd_reads _ _ _ _ _ _ H1) as Hr1.
  destruct j as [|j].
  - exists (S f1), (paused w1), data. rewrite get_response_loop_step, H1.
    simpl is_nil. cbv iota.
    replace (n + 1 >? 5)%Z with true by (subst n; reflexivity).
    split; [reflexivity|]. split; [exact He|].
    simpl log. rewrite actions_app, Hl, <- app_assoc. reflexivity.
  - destruct (IH (n + 1)%Z (paused w1) ltac:(simpl; lia) ltac:(lia)
                ltac:(lia))
      as [f2 [w2 [data2 [H2 [He2 Hl2]]]]].
    assert (data2 = data) by congruence. subst data2.
    exists (S (f1 + f2)), w2, data. rewrite get_response_loop_step.
    rewrite (sendcmd_mono _ f1 (f1 + f2) _ _ _ _ ltac:(lia) H1).
    simpl is_nil. cbv iota.
    replace (n + 1 >? 5)%Z with false
      by (symmetry; rewrite Z.gtb_ltb; apply Z.ltb_ge; lia).
    split; [|split; [exact He|]].
    + apply (get_response_loop_mono f2); [lia | exact H2].
    + rewrite Hl2. simpl log. rewrite actions_app, Hl, <- !app_assoc.
      reflexivity.
Qed.

(** C5.  If from the world of the call on every send of [cmd] yields the
    empty line, [get_response] returns the sentinel, 0 for a numeric
    request and the question mark otherwise, without raising; apart from
    its reads, what it did is six times the write of the command followed
    by a pause of 100 ms.  No amount of fuel gives another result. *)
Theorem get_response_retry_bound cmd Numeric w :
  (forall w1, (reads w <= reads w1)%nat -> exists fuel w',
      SCPI.sendcmd dev fuel cmd true w1 = Some (Ok (Some []), w')) ->
  exists fuel w' data,
    XdmMeter.get_response float dev fuel self cmd Numeric w =
      Some (Ok (if Numeric then XdmMeter.VInt 0
                else XdmMeter.VStr (str "?")), w')
    /\ encode_ascii (cmd ++ [LF]) = Some data
    /\ actions (log w') = actions (log w) ++ rounds 6 data
    /\ forall fuel' r,
         XdmMeter.get_response float dev fuel' self cmd Numeric w = Some r ->
         r = (Ok (if Numeric then XdmMeter.VInt 0
                  else XdmMeter.VStr (str "?")), w').
Proof.
  intros Hsend.
  destruct (get_response_loop_exhausts cmd Numeric (reads w) Hsend 6 0%Z w
              ltac:(lia) ltac:(lia) ltac:(reflexivity))
    as [fuel [w' [data [H [He Hl]]]]].
  exists fuel, w', data. unfold XdmMeter.get_response.
  unfold XdmMeter.sentinel in H.
  split; [exact H|]. split; [exact He|]. split; [exact Hl|].
  intros fuel' r Hr.
  pose proof (get_response_loop_mono fuel (fuel + fuel') _ _ _ _ _
                ltac:(lia) H) as Ha.
  pose proof (get_response_loop_mono fuel' (fuel + fuel') _ _ _ _ _
                ltac:(lia) Hr) as Hb.
  congruence.
Qed.

(** C7.  Numeric request, and the send yields a line that is not empty
    and that [float] rejects: the loop, whatever its counter, returns 0
    in the world the send left, so with no pause and no further send;
    more fuel changes nothing. *)
Theorem get_response_numeric_degrades fuel cmd n w s w1 :
  SCPI.sendcmd dev fuel cmd true w = Some (Ok (Some s), w1) ->
  s <> [] ->
  float s = None ->
  (forall fuel', (fuel < fuel')%nat ->
     XdmMeter.get_response_loop float dev fuel' self cmd true n w =
       Some (Ok (XdmMeter.VInt 0), w1))
  /\ (exists data, encode_ascii (cmd ++ [LF]) = Some data
        /\ actions (log w1) = actions (log w) ++ [EvWrite data])
  /\ XdmMeter.get_response float dev (S fuel) self cmd true w =
       Some (Ok (XdmMeter.VInt 0), w1).
Proof.
  intros Hsend Hs Hf.
  assert (H : forall m, XdmMeter.get_response_loop float dev (S fuel) self
                          cmd true m w = Some (Ok (XdmMeter.VInt 0), w1)).
  { intros m. rewrite get_response_loop_step, Hsend.
    destruct s; [congruence|]. simpl is_nil. cbv iota. rewrite Hf.
    reflexivity. }
  split; [|split].
  - intros fuel' Hlt.
    apply (get_response_loop_mono (S fuel)); [lia | apply H].
  - exact (sendcmd_log _ _ _ _ _ _ Hsend).
  - apply H.
Qed.

(** The text branch: the line, repaired, is returned at once. *)
Lemma get_response_text fuel cmd n w s w1 :
  SCPI.sendcmd dev fuel cmd true w = Some (Ok (Some s), w1) ->
  s <> [] ->
  XdmMeter.get_response_loop float dev (S fuel) self cmd false n w =
    Some (Ok (XdmMeter.VStr (XdmMeter.repair s)), w1).
Proof.
  intros Hsend Hs. rewrite get_response_loop_step, Hsend.
  destruct s; [congruence | reflexivity].
Qed.

End Protocol.

(** ** The repair of the text replies *)

Lemma last_differs (p a l1 l2 : pystr) x y :
  x <> y -> p ++ l1 ++ [x] <> a ++ l2 ++ [y].
Proof.
  intros Hxy H. rewrite !app_assoc in H. apply app_inj_tail in H.
  destruct H as [_ H]. exact (Hxy H).
Qed.

Lemma endswith_false_last p l1 x l2 y :
  x <> y -> endswith (p ++ l1 ++ [x]) (l2 ++ [y]) = false.
Proof.
  intros Hxy. destruct (endswith (p ++ l1 ++ [x]) (l2 ++ [y])) eqn:E;
    [|reflexivity].
  apply endswith_spec in E. destruct E as [a Ha].
  destruct (last_differs p a l1 l2 x y Hxy Ha).
Qed.

Lemma endswith_app p s : endswith (p ++ s) s = true.
Proof. apply endswith_spec. exists p. reflexivity. Qed.

Lemma repair_omega p :
  XdmMeter.repair (p ++ XdmMeter.OMEGA_ESC) = p ++ str "Ohm".
Proof.
  unfold XdmMeter.repair. rewrite endswith_app.
  change 8%nat with (length XdmMeter.OMEGA_ESC).
  rewrite slice_drop_last_app. reflexivity.
Qed.

Lemma repair_mu_f p :
  XdmMeter.repair (p ++ XdmMeter.MU_F_ESC) = p ++ str "uF".
Proof.
  unfold XdmMeter.repair.
  replace (endswith (p ++ XdmMeter.MU_F_ESC) XdmMeter.OMEGA_ESC) with false
    by (symmetry;
        apply (endswith_false_last p (str "\xa6\xcc") 70%N
                                     (str "\xa6\xb") 56%N); discriminate).
  rewrite endswith_app.
  change 9%nat with (length XdmMeter.MU_F_ESC).
  rewrite slice_drop_last_app. reflexivity.
Qed.

Lemma repair_dquote p :
  XdmMeter.repair (p ++ [DQUOTE]) = strip_dquote (p ++ [DQUOTE]).
Proof.
  unfold XdmMeter.repair.
  replace (endswith (p ++ [DQUOTE]) XdmMeter.OMEGA_ESC) with false
    by (symmetry;
        apply (endswith_false_last p [] DQUOTE (str "\xa6\xb") 56%N);
        discriminate).
  replace (endswith (p ++ [DQUOTE]) XdmMeter.MU_F_ESC) with false
    by (symmetry;
        apply (endswith_false_last p [] DQUOTE (str "\xa6\xcc") 70%N);
        discriminate).
  rewrite endswith_app. reflexivity.
Qed.

Lemma repair_other s :
  endswith s XdmMeter.OMEGA_ESC = false ->
  endswith s XdmMeter.MU_F_ESC = false ->
  endswith s [DQUOTE] = false ->
  XdmMeter.repair s = s.
Proof. unfold XdmMeter.repair. intros -> -> ->. reflexivity. Qed.

(** C6.  Text request, and the send yields a line that is not empty:
    [get_response] returns the repaired line at once, in the world the
    send left, whatever fuel it has beyond that of the send, and so does
    its loop at any counter.  The repair puts Ohm for the escapes of the
    bytes A6 B8 at the end of the line, uF for the escapes of A6 CC
    followed by F, takes the double quotes off both ends of a line that
    ends with one, and leaves any other line as it is.  The three endings
    exclude one another, so the order of the tests decides nothing. *)
Theorem get_response_text_repair (F : Type) (float : pystr -> option F)
    dev self scpi fuel cmd n w s w1 :
  XdmMeter.MiniBM self = Some scpi ->
  SCPI.sendcmd dev fuel cmd true w = Some (Ok (Some s), w1) ->
  s <> [] ->
  (forall fuel', (fuel < fuel')%nat ->
     XdmMeter.get_response float dev fuel' self cmd false w =
       Some (Ok (XdmMeter.VStr (XdmMeter.repair s)), w1))
  /\ XdmMeter.get_response_loop float dev (S fuel) self cmd false n w =
       Some (Ok (XdmMeter.VStr (XdmMeter.repair s)), w1)
  /\ (forall p, s = p ++ XdmMeter.OMEGA_ESC ->
        XdmMeter.repair s = p ++ str "Ohm")
  /\ (forall p, s = p ++ XdmMeter.MU_F_ESC ->
        XdmMeter.repair s = p ++ str "uF")
  /\ (forall p, s = p ++ [DQUOTE] ->
        XdmMeter.repair s = strip_dquote s
        /\ (exists l t, s = l ++ XdmMeter.repair s ++ t
                        /\ all_of (N.eqb DQUOTE) l
                        /\ all_of (N.eqb DQUOTE) t)
        /\ no_leading (N.eqb DQUOTE) (XdmMeter.repair s)
        /\ no_trailing (N.eqb DQUOTE) (XdmMeter.repair s))
  /\ (endswith s XdmMeter.OMEGA_ESC = false ->
      endswith s XdmMeter.MU_F_ESC = false ->
      endswith s [DQUOTE] = false ->
      XdmMeter.repair s = s).
Proof.
  intros Hp Hsend Hs.
  split.
  { intros fuel' Hlt. unfold XdmMeter.get_response.
    apply (get_response_loop_mono F float dev self scpi Hp (S fuel));
      [lia|].
    exact (get_response_text F float dev self scpi Hp _ _ _ _ _ _
             Hsend Hs). }
  split; [exact (get_response_text F float dev self scpi Hp _ _ _ _ _ _
                   Hsend Hs)|].
  split; [intros p ->; apply repair_omega|].
  split; [intros p ->; apply repair_mu_f|].
  split; [|apply repair_other].
  intros p ->. rewrite repair_dquote. split; [reflexivity|].
  split; [apply strip_with_split|].
  split; [apply strip_with_no_leading | apply strip_with_no_trailing].
Qed.

Lemma get_response_text_repair_witness :
  XdmMeter.MiniBM a_meter
    = Some (SCPI.mkSCPI (str "COM23", 115200%N, 100%N))
  /\ SCPI.sendcmd ohm_line 3 (str "MEAS?") true w0
     = Some (Ok (Some (str "1.5\xa6\xb8")), ohm_world)
  /\ str "1.5\xa6\xb8" <> []
  /\ XdmMeter.get_response plain_decimal ohm_line 4 a_meter
       (str "MEAS?") false w0
     = Some (Ok (XdmMeter.VStr (XdmMeter.repair (str "1.5\xa6\xb8"))),
             ohm_world)
  /\ XdmMeter.repair (str "1.5\xa6\xb8") = str "1.5" ++ str "Ohm".
Proof.
  assert (H : SCPI.sendcmd ohm_line 3 (str "MEAS?") true w0
              = Some (Ok (Some (str "1.5\xa6\xb8")), ohm_world))
    by reflexivity.
  split; [reflexivity|]. split; [exact H|]. split; [discriminate|].
  destruct (get_response_text_repair pystr plain_decimal ohm_line a_meter _
              3 (str "MEAS?") 0%Z w0 _ ohm_world eq_refl H
              ltac:(discriminate)) as [H1 [_ [H2 _]]].
  split; [exact (H1 4%nat ltac:(lia)) | exact (H2 (str "1.5") eq_refl)].
Defined.

(** ** The instance of a device that did not answer *)

(** [__del__] closes the port and swallows what closing it raises. *)
Lemma del_never_raises dev w :
  SCPI.__del__ dev w = Some (Ok tt, mkWorld (reads w) (log w ++ [EvClose])).
Proof.
  unfold SCPI.__del__, try_except, Serial_close.
  destruct (close_raises dev (log w)); reflexivity.
Qed.

Lemma init_cases dev fuel port w self w' :
  XdmMeter.__init__ dev fuel port w = Some (Ok self, w') ->
  (XdmMeter.id self = Some [] /\ XdmMeter.MiniBM self = None)
  \/ (XdmMeter.id self <> Some []
      /\ exists scpi, XdmMeter.MiniBM self = Some scpi).
Proof.
  unfold XdmMeter.__init__, SCPI.__init__, bind, emit, ret, print.
  destruct (SCPI.sendcmd dev fuel (str "*IDN?") true _)
    as [[[[[|c s]|]|e] w1]|]; try discriminate;
    rewrite ?del_never_raises;
    intros H; injection H as <- _; simpl.
  - left. split; reflexivity.
  - right. split; [discriminate | eauto].
  - right. split; [discriminate | eauto].
Qed.

(** C1, as the code has it.  When the reply to the identification is
    empty, the instance keeps no framer ([MiniBM] is [None]); from then on
    [get_response], [get_mode], [get_measurement] and [set_mode] touch
    neither the port nor the clock, and raise [AttributeError] instead of
    returning a sentinel. *)
Theorem absent_device_operations_raise (F : Type) (float : pystr -> option F)
    dev fuel port w self w' :
  XdmMeter.__init__ dev fuel port w = Some (Ok self, w') ->
  XdmMeter.id self = Some [] ->
  XdmMeter.MiniBM self = None
  /\ forall fuel2 w2,
       (forall cmd Numeric,
          XdmMeter.get_response float dev (S fuel2) self cmd Numeric w2 =
            Some (Raise AttributeError, w2))
       /\ XdmMeter.get_mode float dev (S fuel2) self w2 =
            Some (Raise AttributeError, w2)
       /\ XdmMeter.get_measurement float dev (S fuel2) self w2 =
            Some (Raise AttributeError, w2)
       /\ forall mode,
            XdmMeter.set_mode float dev (S fuel2) self mode w2 =
              Some (Raise AttributeError, w2).
Proof.
  intros Hinit Hid.
  destruct (init_cases _ _ _ _ _ _ Hinit) as [[_ Hm] | [Hne _]];
    [|congruence].
  split; [exact Hm|]. intros fuel2 w2.
  assert (H : forall cmd Numeric,
            XdmMeter.get_response float dev (S fuel2) self cmd Numeric w2 =
              Some (Raise AttributeError, w2)).
  { intros cmd Numeric. unfold XdmMeter.get_response. simpl.
    rewrite Hm. reflexivity. }
  split; [exact H|]. split; [apply H|]. split; [apply H|].
  intros mode. unfold XdmMeter.set_mode, bind. rewrite H. reflexivity.
Qed.

Lemma absent_device_operations_raise_witness :
  XdmMeter.__init__ silent 3 (str "COM23") w0
    = Some (Ok absent_meter, absent_world)
  /\ XdmMeter.id absent_meter = Some []
  /\ XdmMeter.get_measurement plain_decimal silent 1 absent_meter
       absent_world = Some (Raise AttributeError, absent_world).
Proof.
  assert (H : XdmMeter.__init__ silent 3 (str "COM23") w0
              = Some (Ok absent_meter, absent_world)) by reflexivity.
  split; [exact H|]. split; [reflexivity|].
  destruct (absent_device_operations_raise pystr plain_decimal _ _ _ _ _ _
              H eq_refl) as [_ Hops].
  exact (proj1 (proj2 (proj2 (Hops 0%nat absent_world)))).
Defined.

(** C1, as the claim has it, fails.  The device never answers; the
    instance is built, and then [get_mode] and [get_measurement] raise
    where the claim has them return the question mark and 0. *)
Lemma absent_device_no_sentinel :
  XdmMeter.__init__ silent 3 (str "COM23") w0
    = Some (Ok absent_meter, absent_world)
  /\ XdmMeter.get_mode plain_decimal silent 10 absent_meter absent_world
     = Some (Raise AttributeError, absent_world)
  /\ XdmMeter.get_mode plain_decimal silent 10 absent_meter absent_world
     <> Some (Ok (XdmMeter.VStr (str "?")), absent_world)
  /\ XdmMeter.get_measurement plain_decimal silent 10 absent_meter
       absent_world
     = Some (Raise AttributeError, absent_world)
  /\ XdmMeter.set_mode plain_decimal silent 10 absent_meter XdmMeter.VOLT
       absent_world
     = Some (Raise AttributeError, absent_world).
Proof. repeat split. discriminate. Qed.

(** ** [close] *)

(** C8, for the instances that identified their device.  [close] has the
    port closed and returns, whether or not closing the port fails, and in
    any world: so also when it is called again; two calls in a row close
    the port twice and raise nothing. *)
Theorem close_never_raises_when_identified (F : Type)
    dev fuel port w self w' :
  XdmMeter.__init__ dev fuel port w = Some (Ok self, w') ->
  XdmMeter.id self <> Some [] ->
  (forall w1, @XdmMeter.close F dev self w1 =
     Some (Ok XdmMeter.VNone, mkWorld (reads w1) (log w1 ++ [EvClose])))
  /\ (forall w1, (@XdmMeter.close F dev self ;; @XdmMeter.close F dev self) w1 =
        Some (Ok XdmMeter.VNone,
              mkWorld (reads w1) (log w1 ++ [EvClose; EvClose]))).
Proof.
  intros Hinit Hid.
  destruct (init_cases _ _ _ _ _ _ Hinit) as [[Hid' _] | [_ [scpi Hm]]];
    [congruence|].
  assert (H : forall w1, @XdmMeter.close F dev self w1 =
     Some (Ok XdmMeter.VNone, mkWorld (reads w1) (log w1 ++ [EvClose]))).
  { intros w1. unfold XdmMeter.close. rewrite Hm. unfold bind.
    rewrite del_never_raises. reflexivity. }
  split; [exact H|].
  intros w1. unfold bind. rewrite !H. simpl. rewrite <- app_assoc.
  reflexivity.
Qed.

Lemma close_never_raises_when_identified_witness :
  XdmMeter.__init__ stuck 3 (str "COM23") w0 = Some (Ok a_meter, stuck_world)
  /\ XdmMeter.id a_meter <> Some []
  /\ close_raises stuck (log stuck_world) = true
  /\ (@XdmMeter.close pystr stuck a_meter ;; @XdmMeter.close pystr stuck a_meter)
       stuck_world =
     Some (Ok XdmMeter.VNone,
           mkWorld 1 (log stuck_world ++ [EvClose; EvClose])).
Proof.
  assert (H : XdmMeter.__init__ stuck 3 (str "COM23") w0
              = Some (Ok a_meter, stuck_world)) by reflexivity.
  split; [exact H|]. split; [discriminate|]. split; [reflexivity|].
  exact (proj2 (close_never_raises_when_identified pystr _ _ _ _ _ _ H
                  ltac:(discriminate)) stuck_world).
Defined.

(** C8, as the claim has it, fails.  On the instance of a device that did
    not answer, [close] raises [AttributeError], at the first call and at
    the next, and the port is not touched. *)
Lemma close_raises_on_absent_device :
  XdmMeter.__init__ silent 3 (str "COM23") w0
    = Some (Ok absent_meter, absent_world)
  /\ @XdmMeter.close pystr silent absent_meter absent_world
     = Some (Raise AttributeError, absent_world)
  /\ (@XdmMeter.close pystr silent absent_meter ;;
      @XdmMeter.close pystr silent absent_meter) absent_world
     = Some (Raise AttributeError, absent_world).
Proof. repeat split. Qed.

(** ** [set_mode] *)

(** C2 fails on the code.  [set_mode] formats the member with [__str__],
    which gives its name, not the mnemonic kept as its value.  On a device
    that does not answer configuration commands, each of the six attempts
    writes CONF: and the name; for VOLT_AC, CURR_AC and DIODE, and only for
    them, the name is not the mnemonic. *)
Theorem set_mode_sends_member_name :
  (forall mode, exists w',
      XdmMeter.set_mode plain_decimal silent 10 a_meter mode w0
        = Some (Ok XdmMeter.VNone, w')
      /\ actions (log w')
         = rounds 6 (bytes_of ("CONF:" ++ XdmMeter.name mode) ++ [x0a]))
  /\ XdmMeter.value XdmMeter.VOLT_AC = ["VOLT:AC"%string]
  /\ XdmMeter.format XdmMeter.VOLT_AC = str "VOLT_AC"
  /\ XdmMeter.value XdmMeter.CURR_AC = ["CURR:AC"%string]
  /\ XdmMeter.format XdmMeter.CURR_AC = str "CURR_AC"
  /\ XdmMeter.value XdmMeter.DIODE = ["DIOD"%string]
  /\ XdmMeter.format XdmMeter.DIODE = str "DIODE"
  /\ (forall mode,
        In mode [XdmMeter.VOLT_AC; XdmMeter.CURR_AC; XdmMeter.DIODE]
        \/ XdmMeter.value mode = [XdmMeter.name mode]).
Proof.
  split.
  - intros mode; destruct mode; eexists;
      (split; [vm_compute; reflexivity | vm_compute; reflexivity]).
  - repeat split. intros mode; destruct mode; simpl; auto.
Qed.

(** ** Runs of the retry loop *)

Lemma silent_chunks w k : chunks silent w k = [].
Proof.
  unfold chunks, silent, script. simpl.
  destruct (reads w + k)%nat; reflexivity.
Qed.

(** A send on a line that stays silent. *)
Lemma sendcmd_quiet dev cmd data w :
  encode_ascii (cmd ++ [LF]) = Some data ->
  (forall k, chunks dev w k = []) ->
  SCPI.sendcmd dev 3 cmd true w =
    Some (Ok (Some []),
          mkWorld (reads w + 3)
                  (log w ++ [EvWrite data; EvRead 64 []; EvRead 64 [];
                             EvRead 64 []])).
Proof.
  intros He Hq. unfold SCPI.sendcmd. rewrite He.
  unfold bind, Serial_write, emit. fold (written w data).
  rewrite (readdata_silent dev (written w data) Hq 3). simpl.
  rewrite <- app_assoc. reflexivity.
Qed.

Lemma named_line_chunks w k :
  (1 <= reads w)%nat -> chunks named_line w k = [].
Proof.
  intros Hw. unfold chunks, named_line, script. simpl.
  destruct (reads w + k)%nat as [|[|n]] eqn:E; [lia | reflexivity..].
Qed.

Lemma get_response_retry_bound_witness :
  XdmMeter.__init__ named_line 3 (str "COM23") w0
    = Some (Ok a_meter, stuck_world)
  /\ (forall w1, (reads stuck_world <= reads w1)%nat -> exists fuel w',
        SCPI.sendcmd named_line fuel (str "MEAS?") true w1
          = Some (Ok (Some []), w'))
  /\ exists fuel w' data,
       XdmMeter.get_response plain_decimal named_line fuel a_meter
         (str "MEAS?") true stuck_world = Some (Ok (XdmMeter.VInt 0), w')
       /\ encode_ascii (str "MEAS?" ++ [LF]) = Some data
       /\ actions (log w') = actions (log stuck_world) ++ rounds 6 data
       /\ forall fuel' r,
            XdmMeter.get_response plain_decimal named_line fuel' a_meter
              (str "MEAS?") true stuck_world = Some r ->
            r = (Ok (XdmMeter.VInt 0), w').
Proof.
  assert (H : forall w1, (reads stuck_world <= reads w1)%nat ->
      exists fuel w',
        SCPI.sendcmd named_line fuel (str "MEAS?") true w1
          = Some (Ok (Some []), w')).
  { intros w1 Hw1. exists 3%nat. eexists.
    apply (sendcmd_quiet named_line (str "MEAS?")
             (bytes_of "MEAS?" ++ [x0a])); [reflexivity|].
    intros k. apply named_line_chunks. exact Hw1. }
  split; [reflexivity|]. split; [exact H|].
  exact (get_response_retry_bound pystr plain_decimal named_line a_meter _
           eq_refl (str "MEAS?") true stuck_world H).
Defined.

Lemma get_response_numeric_degrades_witness :
  SCPI.sendcmd abc_line 3 (str "MEAS?") true w0
    = Some (Ok (Some (str "abc")), abc_world)
  /\ str "abc" <> []
  /\ plain_decimal (str "abc") = None
  /\ XdmMeter.get_response plain_decimal abc_line 4 a_meter (str "MEAS?")
       true w0
     = Some (Ok (XdmMeter.VInt 0), abc_world).
Proof.
  assert (H : SCPI.sendcmd abc_line 3 (str "MEAS?") true w0
              = Some (Ok (Some (str "abc")), abc_world)) by reflexivity.
  split; [exact H|]. split; [discriminate|]. split; [reflexivity|].
  exact (proj2 (proj2 (get_response_numeric_degrades pystr plain_decimal
                         abc_line a_meter _ eq_refl 3 (str "MEAS?") 0%Z w0
                         _ abc_world H ltac:(discriminate) eq_refl))).
Defined.

(** * Further properties of the code *)

(** ** Encoding a command and decoding it back *)

Lemma of_N_ascii c : (c < 128)%N -> exists b, Byte.of_N c = Some b.
Proof.
  intros Hc. pose proof (Byte.to_of_N_option_map c) as H.
  destruct (Byte.of_N c) as [b|]; [eauto|].
  simpl in H. destruct (N.leb_spec c 255); [discriminate | lia].
Qed.

Lemma decode_ascii_cons b t :
  (Byte.to_N b < 128)%N -> decode (b :: t) = Byte.to_N b :: decode t.
Proof.
  intros Hb. unfold decode. simpl. unfold utf8_head.
  apply N.ltb_lt in Hb. change 0x80%N with 128%N. rewrite Hb. reflexivity.
Qed.

Lemma encode_ascii_decode s bs :
  encode_ascii s = Some bs -> decode bs = s /\ length bs = length s.
Proof.
  revert bs. induction s as [|c s IH]; intros bs H; simpl in H.
  - injection H as <-. split; reflexivity.
  - destruct (c <? 128)%N eqn:Ec; [|discriminate].
    destruct (Byte.of_N c) as [b|] eqn:Eb; [|discriminate].
    destruct (encode_ascii s) as [bs'|]; [|discriminate].
    injection H as <-. apply Byte.to_of_N in Eb. apply N.ltb_lt in Ec.
    destruct (IH bs' eq_refl) as [Hd Hl].
    rewrite decode_ascii_cons by (rewrite Eb; exact Ec).
    rewrite Eb, Hd. simpl. split; congruence.
Qed.

Lemma encode_ascii_none s :
  Exists (fun c => (128 <= c)%N) s -> encode_ascii s = None.
Proof.
  intros Hs. induction Hs as [c s Hc | c s _ IH]; simpl.
  - apply N.ltb_ge in Hc. rewrite Hc. reflexivity.
  - rewrite IH. destruct (c <? 128)%N; [|reflexivity].
    destruct (Byte.of_N c); reflexivity.
Qed.

(** X1.  A text of ASCII characters encodes to as many bytes, which decode
    back to the text; a text with any other character does not encode. *)
Theorem ascii_round_trip s :
  (Forall (fun c => (c < 128)%N) s ->
   exists bs, encode_ascii s = Some bs /\ decode bs = s
              /\ length bs = length s)
  /\ (Exists (fun c => (128 <= c)%N) s -> encode_ascii s = None).
Proof.
  split.
  - intros Hs.
    assert (He : exists bs, encode_ascii s = Some bs).
    { induction Hs as [|c s Hc _ [bs IH]]; [exists []; reflexivity|].
      destruct (of_N_ascii c Hc) as [b Hb]. exists (b :: bs). simpl.
      apply N.ltb_lt in Hc. rewrite Hc, Hb, IH. reflexivity. }
    destruct He as [bs He]. exists bs. split; [exact He|].
    exact (encode_ascii_decode s bs He).
  - apply encode_ascii_none.
Qed.

Lemma ascii_round_trip_witness :
  Forall (fun c => (c < 128)%N) (str "MEAS?")
  /\ (exists bs, encode_ascii (str "MEAS?") = Some bs
                 /\ decode bs = str "MEAS?"
                 /\ length bs = length (str "MEAS?"))
  /\ Exists (fun c => (128 <= c)%N) [0x2126%N]
  /\ encode_ascii [0x2126%N] = None.
Proof.
  assert (H1 : Forall (fun c => (c < 128)%N) (str "MEAS?"))
    by (repeat constructor).
  assert (H2 : Exists (fun c => (128 <= c)%N) [0x2126%N])
    by (constructor; discriminate).
  split; [exact H1|].
  split; [exact (proj1 (ascii_round_trip (str "MEAS?")) H1)|].
  split; [exact H2|].
  exact (proj2 (ascii_round_trip [0x2126%N]) H2).
Defined.

(** ** The terminator in the decoded text *)

Lemma utf8_head_cp c t cp k :
  utf8_head c t = Some (cp, k) ->
  (cp = c /\ k = 0%nat /\ (c < 0x80)%N) \/ (0x80 <= cp)%N.
Proof.
  unfold utf8_head, is_cont, in_range.
  destruct (N.ltb_spec c 0x80) as [Hlt | Hge];
    [intros H; injection H as <- <-; left; auto|].
  intros H. right.
  repeat match type of H with
         | (if ?b then _ else _) = _ =>
             let E := fresh "E" in destruct b eqn:E; try discriminate
         | match ?l with _ => _ end = _ => destruct l; try discriminate
         end;
    injection H as <- _;
    repeat match goal with
           | E : context [if ?b then _ else _] |- _ =>
               let E' := fresh "E" in destruct b eqn:E'
           | E : (_ && _)%bool = true |- _ =>
               apply andb_true_iff in E; destruct E
           | E : (_ <=? _)%N = true |- _ => apply N.leb_le in E
           | E : (_ =? _)%N = true |- _ => apply N.eqb_eq in E
           | E : (_ =? _)%N = false |- _ => apply N.eqb_neq in E
           end; lia.
Qed.

Lemma hexdigit_ge d : (48 <= hexdigit d)%N.
Proof. unfold hexdigit. destruct (d <? 10)%N; lia. Qed.

Lemma to_N_eq b c x : Byte.to_N b = c -> Byte.of_N c = Some x -> b = x.
Proof. intros <- H. rewrite Byte.of_to_N in H. congruence. Qed.

(** A text that starts with a line feed was decoded from one. *)
Lemma decode_head_lf t r : decode t = LF :: r -> exists t', t = x0a :: t'.
Proof.
  destruct t as [|b t]; [discriminate|]. unfold decode. simpl.
  destruct (utf8_head (Byte.to_N b) t) as [[cp k]|] eqn:E;
    [|discriminate].
  intros H. injection H as -> _. apply utf8_head_cp in E.
  destruct E as [[E _] | E]; [|unfold LF in E; lia].
  exists t. f_equal. exact (to_N_eq b LF x0a (eq_sym E) eq_refl).
Qed.

Lemma occurs_cons c r :
  occurs CRLF (c :: r) -> (c = CR /\ exists b, r = LF :: b) \/ occurs CRLF r.
Proof.
  intros [a [b H]]. destruct a as [|a0 a].
  - injection H as -> ->. left. eauto.
  - injection H as _ ->. right. exists a, b. reflexivity.
Qed.

Lemma occurs_bytes_cons b t : occurs_bytes t -> occurs_bytes (b :: t).
Proof. intros [p [q ->]]. exists (b :: p), q. reflexivity. Qed.

Lemma decode_from_crlf bs : forall k,
  occurs CRLF (decode_from k bs) -> occurs_bytes bs.
Proof.
  induction bs as [|b t IH]; intros k H.
  - destruct H as [a [c H]]. destruct a; discriminate.
  - simpl in H. destruct k as [|k];
      [|apply occurs_bytes_cons; exact (IH k H)].
    destruct (utf8_head (Byte.to_N b) t) as [[cp j]|] eqn:E.
    + apply occurs_cons in H. destruct H as [[Hcp [r Hr]] | H];
        [|apply occurs_bytes_cons; exact (IH j H)].
      apply utf8_head_cp in E.
      destruct E as [[E [-> _]] | E]; [|subst cp; unfold CR in E; lia].
      destruct (decode_head_lf t r Hr) as [t' ->].
      assert (b = x0d)
        by (apply (to_N_eq b CR x0d); [congruence | reflexivity]).
      subst b. exists [], t'. reflexivity.
    + pose proof (hexdigit_ge (Byte.to_N b / 16)) as H1.
      pose proof (hexdigit_ge (Byte.to_N b mod 16)) as H2.
      unfold backslashreplace in H. simpl app in H.
      repeat (apply occurs_cons in H;
              destruct H as [[Hc _] | H]; [unfold CR in Hc; lia|]).
      apply occurs_bytes_cons. exact (IH 0%nat H).
Qed.

(** X2.  The decoded text holds a CR LF exactly where the bytes hold
    one: the escapes and the characters beyond ASCII bring none, and an
    ill-formed sequence in front of a CR LF swallows neither byte. *)
Theorem decode_keeps_terminators bs :
  occurs CRLF (decode bs) <-> exists p q, bs = p ++ CRLF_bytes ++ q.
Proof.
  split; [apply decode_from_crlf|].
  intros [p [q ->]]. rewrite decode_app by reflexivity.
  rewrite decode_crlf. exists (decode p), (decode q). reflexivity.
Qed.

(** ** A frame that arrives whole *)

Lemma find_from_range i s sub :
  find_from i s sub = (-1)%Z \/ (i <= find_from i s sub)%Z.
Proof.
  revert i. induction s as [|c s IH]; intros i; rewrite find_from_eq.
  - destruct (startswith [] sub); [right; lia | left; reflexivity].
  - destruct (startswith (c :: s) sub); [right; lia|].
    destruct (IH (i + 1)%Z) as [H | H]; [left; exact H | right; lia].
Qed.

(** Where [find] points, the text is found. *)
Lemma find_from_spec s sub : forall i x,
  (0 <= i)%Z -> find_from i s sub = x -> (0 <= x)%Z ->
  exists a b, s = a ++ sub ++ b /\ len a = (x - i)%Z.
Proof.
  induction s as [|c s IH]; intros i x Hi H Hx; rewrite find_from_eq in H.
  - destruct (startswith [] sub) eqn:E; [|lia].
    apply startswith_spec in E. destruct E as [b E]. exists [], b.
    split; [exact E | unfold len; simpl; lia].
  - destruct (startswith (c :: s) sub) eqn:E.
    + apply startswith_spec in E. destruct E as [b E]. exists [], b.
      split; [exact E | unfold len; simpl; lia].
    + destruct (find_from_range (i + 1) s sub) as [Hr | Hr]; [lia|].
      destruct (IH (i + 1)%Z x ltac:(lia) H Hx) as [a [b [Hs Hl]]].
      exists (c :: a), b. split; [simpl; congruence|].
      unfold len in *. simpl length. lia.
Qed.

Lemma app_split_shorter {A} (a a' r r' : list A) :
  a ++ r = a' ++ r' -> (length a' <= length a)%nat ->
  exists m, a = a' ++ m /\ r' = m ++ r.
Proof.
  revert a'. induction a as [|x a IH]; intros a' H Hl.
  - destruct a'; [|simpl in Hl; lia]. exists []. simpl in *. auto.
  - destruct a' as [|y a'].
    + exists (x :: a). simpl in *. auto.
    + injection H as -> H. simpl in Hl.
      destruct (IH a' H ltac:(lia)) as [m [-> ->]].
      exists m. auto.
Qed.

(** With no CR LF before it, the one at the end is the one [find] gives. *)
Lemma find_terminator a :
  ~ occurs CRLF a -> find (a ++ CRLF) CRLF = len a.
Proof.
  intros Hno.
  pose proof (find_le a CRLF []) as Hle. rewrite app_nil_r in Hle.
  destruct (find_from_spec (a ++ CRLF) CRLF 0 _ ltac:(lia) eq_refl
              (proj1 Hle)) as [a' [b' [Hs Hl]]].
  fold (find (a ++ CRLF) CRLF) in Hl. rewrite Z.sub_0_r in Hl.
  destruct (Z.eq_dec (find (a ++ CRLF) CRLF) (len a)) as [E | E];
    [exact E | exfalso].
  unfold len in *.
  destruct (app_split_shorter a a' CRLF (CRLF ++ b') Hs ltac:(lia))
    as [m [Ha Hm]].
  assert (Hmne : m <> []).
  { intros ->. rewrite app_nil_r in Ha. subst a'. lia. }
  destruct m as [|m0 [|m1 m]]; [congruence | discriminate Hm|].
  injection Hm as E1 E2 _. subst m0 m1. apply Hno. exists a', m. exact Ha.
Qed.

Lemma dropwhile_all f (t r : pystr) :
  all_of f t -> dropwhile f (t ++ r) = dropwhile f r.
Proof.
  induction 1 as [|c t Hc _ IH]; [reflexivity|]. simpl. rewrite Hc. exact IH.
Qed.

Lemma dropwhile_app f (a t : pystr) :
  all_of f t ->
  dropwhile f (a ++ t) =
  match dropwhile f a with
  | [] => []
  | d => d ++ t
  end.
Proof.
  intros Ht. induction a as [|c a IH]; simpl.
  - rewrite <- (app_nil_r t) at 1. rewrite dropwhile_all by exact Ht.
    reflexivity.
  - destruct (f c); [exact IH | reflexivity].
Qed.

(** White space behind a text does not change what [strip] keeps. *)
Lemma strip_with_app f a t :
  all_of f t -> strip_with f (a ++ t) = strip_with f a.
Proof.
  intros Ht. unfold strip_with. rewrite dropwhile_app by exact Ht.
  destruct (dropwhile f a) as [|d ds]; [reflexivity|].
  rewrite rev_app_distr, dropwhile_all by (apply Forall_rev; exact Ht).
  reflexivity.
Qed.

Lemma frame_text_whole payload :
  ~ occurs_bytes payload ->
  SCPI.frame_text (payload ++ CRLF_bytes) = strip (decode payload).
Proof.
  intros Hno. unfold SCPI.frame_text.
  rewrite decode_app by reflexivity.
  change (decode CRLF_bytes) with CRLF.
  rewrite find_terminator
    by (intros H; apply Hno; exact (decode_from_crlf _ _ H)).
  unfold len. rewrite length_app. simpl length.
  replace (Z.of_nat (length (decode payload))
           =? Z.of_nat (length (decode payload) + 2) - 2)%Z with true
    by (symmetry; apply Z.eqb_eq; lia).
  apply strip_with_app. repeat constructor.
Qed.

Lemma readdata_frame_run dev w m payload :
  (forall j, (j < m)%nat -> ~ ends_crlf (acc (chunks dev w) (S j))) ->
  (empties (chunks dev w) (S m) <= 2)%nat ->
  acc (chunks dev w) (S m) = payload ++ CRLF_bytes ->
  ~ (exists p q, payload = p ++ CRLF_bytes ++ q) ->
  forall fuel, (m < fuel)%nat ->
    SCPI.readdata dev fuel w =
    Some (Ok (strip (decode payload)),
          mkWorld (reads w + S m)
                  (log w ++ read_events (chunks dev w) (S m))).
Proof.
  intros Hno He Hacc Hpay fuel Hfuel.
  assert (Hlast : is_nil (chunks dev w m) = false).
  { destruct (chunks dev w m) eqn:E; [exfalso | reflexivity].
    simpl acc in Hacc. rewrite E, app_nil_r in Hacc. destruct m as [|m].
    - simpl in Hacc. destruct payload; discriminate.
    - apply (Hno m ltac:(lia)). exists payload. exact Hacc. }
  apply readdata_some. do 2 eexists. split.
  - apply (loop_exit m dev fuel [] 0%Z w (chunks dev w));
      [reflexivity | | | exact Hfuel].
    + intros j Hj. unfold stops.
      destruct (is_nil (chunks dev w j)).
      * pose proof (empties_mono (chunks dev w) (S j) (S m) ltac:(lia)).
        rewrite Z.gtb_ltb. apply Z.ltb_ge. lia.
      * destruct (ends_crlfb ([] ++ acc (chunks dev w) (S j))) eqn:E;
          [|reflexivity].
        apply ends_crlfb_spec in E. destruct (Hno j Hj E).
    + unfold stops. rewrite Hlast. apply ends_crlfb_spec.
      exists payload. exact Hacc.
  - unfold loop_result. rewrite Hlast, app_nil_l, Hacc.
    rewrite frame_text_whole by exact Hpay. reflexivity.
Qed.

(** X3.  The replies hold at most two empty reads up to the read at which
    their bytes first end with CR LF, and no CR LF before that: then
    [readdata] stops at that read and returns the decoded payload without
    the terminator and without the white space around it, however the
    payload was cut into reads. *)
Theorem readdata_returns_frame dev w m payload :
  (forall j, (j < m)%nat -> ~ ends_crlf (acc (chunks dev w) (S j))) ->
  (empties (chunks dev w) (S m) <= 2)%nat ->
  acc (chunks dev w) (S m) = payload ++ CRLF_bytes ->
  ~ (exists p q, payload = p ++ CRLF_bytes ++ q) ->
  forall fuel, (m < fuel)%nat ->
    SCPI.readdata dev fuel w =
    Some (Ok (strip (decode payload)),
          mkWorld (reads w + S m)
                  (log w ++ read_events (chunks dev w) (S m))).
Proof.
  intros Hno He Hacc Hpay fuel Hfuel.
  assert (Hlast : is_nil (chunks dev w m) = false).
  { destruct (chunks dev w m) eqn:E; [exfalso | reflexivity].
    simpl acc in Hacc. rewrite E, app_nil_r in Hacc. destruct m as [|m].
    - simpl in Hacc. destruct payload; discriminate.
    - apply (Hno m ltac:(lia)). exists payload. exact Hacc. }
  apply readdata_some. do 2 eexists. split.
  - apply (loop_exit m dev fuel [] 0%Z w (chunks dev w));
      [reflexivity | | | exact Hfuel].
    + intros j Hj. unfold stops.
      destruct (is_nil (chunks dev w j)).
      * pose proof (empties_mono (chunks dev w) (S j) (S m) ltac:(lia)).
        rewrite Z.gtb_ltb. apply Z.ltb_ge. lia.
      * destruct (ends_crlfb ([] ++ acc (chunks dev w) (S j))) eqn:E;
          [|reflexivity].
        apply ends_crlfb_spec in E. destruct (Hno j Hj E).
    + unfold stops. rewrite Hlast. apply ends_crlfb_spec.
      exists payload. exact Hacc.
  - unfold loop_result. rewrite Hlast, app_nil_l, Hacc.
    rewrite frame_text_whole by exact Hpay. reflexivity.
Qed.

Lemma volt_payload_plain :
  ~ (exists p q, bytes_of " VOLT" = p ++ CRLF_bytes ++ q).
Proof.
  intros [p [q H]].
  repeat (destruct p as [|? p]; [discriminate H|]; try discriminate H;
          injection H as _ H).
Qed.

Lemma readdata_returns_frame_witness :
  (forall j, (j < 1)%nat -> ~ ends_crlf (acc (chunks volt_line w0) (S j)))
  /\ (empties (chunks volt_line w0) 2 <= 2)%nat
  /\ acc (chunks volt_line w0) 2 = bytes_of " VOLT" ++ CRLF_bytes
  /\ SCPI.readdata volt_line 2 w0 =
     Some (Ok (strip (decode (bytes_of " VOLT"))),
           mkWorld (reads w0 + 2)
                   (log w0 ++ read_events (chunks volt_line w0) 2)).
Proof.
  assert (H1 : forall j, (j < 1)%nat ->
                 ~ ends_crlf (acc (chunks volt_line w0) (S j))).
  { intros j Hj. assert (j = 0%nat) by lia. subst j.
    intros [p Hp]. simpl in Hp.
    repeat (destruct p as [|? p]; [discriminate Hp|]; try discriminate Hp;
            injection Hp as _ Hp). }
  split; [exact H1|]. split; [simpl; lia|]. split; [reflexivity|].
  exact (readdata_returns_frame volt_line w0 1 (bytes_of " VOLT") H1
           ltac:(simpl; lia) eq_refl volt_payload_plain 2%nat
           ltac:(lia)).
Defined.

(** ** Every run of the retry loop *)

Lemma readdata_ok dev fuel w r w' :
  SCPI.readdata dev fuel w = Some (r, w') -> exists s, r = Ok s.
Proof.
  intros H. apply readdata_some in H. destruct H as [buf [w1 [_ H]]].
  injection H as -> _. eauto.
Qed.

Lemma sendcmd_run dev fuel msg data w :
  encode_ascii (msg ++ [LF]) = Some data ->
  SCPI.sendcmd dev fuel msg true w =
  match SCPI.readdata dev fuel (written w data) with
  | Some (Ok s, w1) => Some (Ok (Some s), w1)
  | Some (Raise e, w1) => Some (Raise e, w1)
  | None => None
  end.
Proof.
  intros He. unfold SCPI.sendcmd. rewrite He.
  unfold bind, Serial_write, emit. fold (written w data).
  destruct (SCPI.readdata dev fuel (written w data)) as [[[s|e] w1]|];
    reflexivity.
Qed.

(** A send of an ASCII command that returns gives a line. *)
Lemma sendcmd_ok dev fuel msg data w r w1 :
  encode_ascii (msg ++ [LF]) = Some data ->
  SCPI.sendcmd dev fuel msg true w = Some (r, w1) ->
  exists s, r = Ok (Some s)
            /\ actions (log w1) = actions (log w) ++ [EvWrite data].
Proof.
  intros He H. rewrite (sendcmd_run _ _ _ _ _ He) in H.
  destruct (SCPI.readdata dev fuel (written w data)) as [[r0 w2]|] eqn:E;
    [|discriminate].
  destruct (readdata_ok _ _ _ _ _ E) as [s ->]. injection H as <- <-.
  exists s. split; [reflexivity|].
  assert (Hs : SCPI.sendcmd dev fuel msg true w = Some (Ok (Some s), w2))
    by (rewrite (sendcmd_run _ _ _ _ _ He), E; reflexivity).
  destruct (sendcmd_log _ _ _ _ _ _ Hs) as [data' [He' Hl]].
  congruence.
Qed.

Lemma sendcmd_non_ascii dev fuel msg getdata w :
  Exists (fun c => (128 <= c)%N) msg ->
  SCPI.sendcmd dev fuel msg getdata w = Some (Raise UnicodeEncodeError, w).
Proof.
  intros Hm. unfold SCPI.sendcmd.
  rewrite encode_ascii_none by (apply Exists_app; left; exact Hm).
  reflexivity.
Qed.

Section Runs.

Variable F : Type.
Variable float : pystr -> option F.
Variable dev : device.
Variable self : XdmMeter.obj.
Variable scpi : SCPI.obj.
Hypothesis present : XdmMeter.MiniBM self = Some scpi.

(** A run of the loop entered with the counter [n] is [k] failed rounds,
    closed by the sentinel when the counter passes 5, or by the answer to
    one more send. *)
Lemma get_response_loop_run fuel : forall cmd data Numeric n w r w',
  encode_ascii (cmd ++ [LF]) = Some data ->
  (0 <= n <= 5)%Z ->
  XdmMeter.get_response_loop float dev fuel self cmd Numeric n w
    = Some (r, w') ->
  exists k,
    (Z.of_nat k = 6 - n /\ r = Ok (XdmMeter.sentinel Numeric)
     /\ actions (log w') = actions (log w) ++ rounds k data)%Z
    \/ ((Z.of_nat k <= 5 - n)%Z
        /\ actions (log w')
           = actions (log w) ++ rounds k data ++ [EvWrite data]
        /\ exists s, s <> [] /\ r = Ok (answer float Numeric s)).
Proof.
  induction fuel as [|fuel IH]; intros cmd data Numeric n w r w' He Hn H;
    [discriminate|].
  rewrite (get_response_loop_step F float dev self scpi present) in H.
  destruct (SCPI.sendcmd dev fuel cmd true w) as [[r0 w1]|] eqn:E;
    [|discriminate].
  destruct (sendcmd_ok _ _ _ _ _ _ _ He E) as [s [-> Hl]].
  destruct s as [|c s]; simpl is_nil in H; cbv iota in H.
  - destruct (n + 1 >? 5)%Z eqn:En.
    + injection H as <- <-. exists 1%nat. left.
      apply Z.gtb_lt in En. split; [lia|]. split; [reflexivity|].
      simpl log. rewrite actions_app, Hl, <- app_assoc. reflexivity.
    + rewrite Z.gtb_ltb in En. apply Z.ltb_ge in En.
      destruct (IH cmd data Numeric (n + 1)%Z (paused w1) r w' He
                  ltac:(lia) H) as [k Hk].
      exists (S k).
      assert (Hp : actions (log (paused w1)) ++ rounds k data
                   = actions (log w) ++ rounds (S k) data).
      { simpl log. rewrite actions_app, Hl, <- !app_assoc. reflexivity. }
      destruct Hk as [[Hk [Hr Ha]] | [Hk [Ha Hs]]].
      * left. split; [lia|]. split; [exact Hr|]. rewrite Ha. exact Hp.
      * right. split; [lia|]. split; [|exact Hs].
        rewrite Ha, app_assoc, Hp, <- app_assoc. reflexivity.
  - exists 0%nat. right. split; [lia|]. split.
    + assert (w' = w1) by (destruct Numeric; congruence). subst w'.
      exact Hl.
    + exists (c :: s). split; [discriminate|]. unfold answer.
      destruct Numeric; congruence.
Qed.

(** X4.  Whatever the device sends, a call of [get_response] with an ASCII
    command that returns has not raised, and besides its reads it did
    this: at most five times it wrote the command and paused 100 ms, then
    wrote it once more and returned the answer to a line that was not
    empty; or it wrote and paused six times and returned the sentinel. *)
Theorem get_response_attempts fuel cmd data Numeric w r w' :
  encode_ascii (cmd ++ [LF]) = Some data ->
  XdmMeter.get_response float dev fuel self cmd Numeric w = Some (r, w') ->
  (r = Ok (XdmMeter.sentinel Numeric)
   /\ actions (log w') = actions (log w) ++ rounds 6 data)
  \/ (exists k s,
        (k <= 5)%nat
        /\ actions (log w')
           = actions (log w) ++ rounds k data ++ [EvWrite data]
        /\ s <> []
        /\ r = Ok (if Numeric then
                     match float s with
                     | Some v => XdmMeter.VFloat v
                     | None => XdmMeter.VInt 0
                     end
                   else XdmMeter.VStr (XdmMeter.repair s))).
Proof.
  intros He H.
  destruct (get_response_loop_run fuel cmd data Numeric 0%Z w r w' He
              ltac:(lia) H) as [k [[Hk [Hr Ha]] | [Hk [Ha [s [Hs Hr]]]]]].
  - left. assert (k = 6%nat) by lia. subst k. auto.
  - right. exists k, s. repeat split; try assumption. lia.
Qed.

(** X5.  On an instance that identified its device, a call of [get_mode]
    that returns gives a string, and a call of [get_measurement] that
    returns gives a float or the integer 0; neither raises. *)
Theorem query_results fuel w r w' :
  (XdmMeter.get_mode float dev fuel self w = Some (r, w') ->
   exists s, r = Ok (XdmMeter.VStr s))
  /\ (XdmMeter.get_measurement float dev fuel self w = Some (r, w') ->
      r = Ok (XdmMeter.VInt 0) \/ exists v, r = Ok (XdmMeter.VFloat v)).
Proof.
  split; intros H.
  - destruct (get_response_loop_run fuel (str "FUNC?") _ false 0%Z w r w'
                eq_refl ltac:(lia) H)
      as [k [[_ [Hr _]] | [_ [_ [s [_ Hr]]]]]]; subst r;
      eexists; reflexivity.
  - destruct (get_response_loop_run fuel (str "MEAS?") _ true 0%Z w r w'
                eq_refl ltac:(lia) H)
      as [k [[_ [Hr _]] | [_ [_ [s [_ Hr]]]]]]; subst r; [left; reflexivity|].
    unfold answer. destruct (float s); eauto.
Qed.



End Runs.

(** ** A line that falls silent *)





(** ** The construction of the instance *)

Lemma init_run dev fuel port w r w' :
  XdmMeter.__init__ dev fuel port w = Some (r, w') ->
  exists reply,
    r = Ok (XdmMeter.mkXdm
              (if is_nil reply then None
               else Some (SCPI.mkSCPI (port, 115200%N, 100%N)))
              (Some reply))
    /\ actions (log w')
       = actions (log w)
         ++ [EvOpen port 115200 100;
             EvWrite (bytes_of "*IDN?" ++ [x0a])]
         ++ (if is_nil reply
             then [EvClose;
                   EvPrint (str "device at " ++ port
                            ++ str " does not respond")]
             else [EvPrint reply]).
Proof.
  unfold XdmMeter.__init__, SCPI.__init__, bind, emit, ret, print.
  match goal with
  | |- context [SCPI.sendcmd dev fuel ?m true ?w1] =>
      destruct (SCPI.sendcmd dev fuel m true w1) as [[r0 w2]|] eqn:E;
        [|discriminate];
      destruct (sendcmd_ok dev fuel m (bytes_of "*IDN?" ++ [x0a]) w1 r0 w2
                  eq_refl E) as [s [-> Hl]]
  end.
  simpl log in Hl. rewrite actions_app in Hl. simpl actions in Hl.
  intros H. exists s. destruct s as [|c s];
    rewrite ?del_never_raises in H; injection H as <- <-;
    (split; [reflexivity|]); simpl log; rewrite ?actions_app, Hl;
    rewrite <- !app_assoc; reflexivity.
Qed.



(** ** [set_mode] on any device *)

Lemma conf_command mode :
  encode_ascii ((str "CONF:" ++ XdmMeter.format mode) ++ [LF])
  = Some (bytes_of ("CONF:" ++ XdmMeter.name mode) ++ [x0a]).
Proof. destruct mode; reflexivity. Qed.

(** X9.  On an instance that identified its device, a call of [set_mode]
    that returns gives [None] and has not raised, whatever the device
    answered, and what it wrote is CONF: and the name of the member, up
    to six times, with a pause of 100 ms after each write but the one
    that was answered. *)
Theorem set_mode_outcome (F : Type) (float : pystr -> option F)
    dev fuel self scpi mode w r w' :
  XdmMeter.MiniBM self = Some scpi ->
  XdmMeter.set_mode float dev fuel self mode w = Some (r, w') ->
  r = Ok XdmMeter.VNone
  /\ exists k,
       let data := bytes_of ("CONF:" ++ XdmMeter.name mode) ++ [x0a] in
       (k = 6%nat /\ actions (log w') = actions (log w) ++ rounds k data)
       \/ ((k <= 5)%nat
           /\ actions (log w')
              = actions (log w) ++ rounds k data ++ [EvWrite data]).
Proof.
  intros Hm. unfold XdmMeter.set_mode, XdmMeter.get_response, bind.
  destruct (XdmMeter.get_response_loop float dev fuel self
              (str "CONF:" ++ XdmMeter.format mode) false 0 w)
    as [[r0 w1]|] eqn:E; [|discriminate].
  destruct (get_response_loop_run F float dev self scpi Hm fuel _ _ false
              0%Z w r0 w1 (conf_command mode) ltac:(lia) E)
    as [k [[Hk [-> Ha]] | [Hk [Ha [s [_ ->]]]]]];
    intros H; injection H as <- <-; (split; [reflexivity|]); exists k.
  - left. split; [lia | exact Ha].
  - right. split; [lia | exact Ha].
Qed.

Lemma set_mode_outcome_witness :
  XdmMeter.MiniBM a_meter
    = Some (SCPI.mkSCPI (str "COM23", 115200%N, 100%N))
  /\ XdmMeter.set_mode plain_decimal abc_line 5 a_meter XdmMeter.DIODE w0
     = Some (Ok XdmMeter.VNone,
             mkWorld 1 [EvWrite (bytes_of "CONF:DIODE" ++ [x0a]);
                        EvRead 64 (bytes_of "abc" ++ CRLF_bytes)])
  /\ exists k,
       (k = 6%nat
        /\ actions [EvWrite (bytes_of "CONF:DIODE" ++ [x0a]);
                    EvRead 64 (bytes_of "abc" ++ CRLF_bytes)]
           = actions (log w0)
             ++ rounds k (bytes_of "CONF:DIODE" ++ [x0a]))
       \/ ((k <= 5)%nat
           /\ actions [EvWrite (bytes_of "CONF:DIODE" ++ [x0a]);
                       EvRead 64 (bytes_of "abc" ++ CRLF_bytes)]
              = actions (log w0)
                ++ rounds k (bytes_of "CONF:DIODE" ++ [x0a])
                ++ [EvWrite (bytes_of "CONF:DIODE" ++ [x0a])]).
Proof.
  assert (H : XdmMeter.set_mode plain_decimal abc_line 5 a_meter
                XdmMeter.DIODE w0
              = Some (Ok XdmMeter.VNone,
                      mkWorld 1 [EvWrite (bytes_of "CONF:DIODE" ++ [x0a]);
                                 EvRead 64 (bytes_of "abc" ++ CRLF_bytes)]))
    by reflexivity.
  split; [reflexivity|]. split; [exact H|].
  exact (proj2 (set_mode_outcome pystr plain_decimal abc_line 5 a_meter _
                  XdmMeter.DIODE w0 _ _ eq_refl H)).
Defined.

(** ** Witnesses for the runs of the retry loop *)

Lemma get_response_attempts_witness :
  XdmMeter.MiniBM a_meter
    = Some (SCPI.mkSCPI (str "COM23", 115200%N, 100%N))
  /\ encode_ascii (str "FUNC?" ++ [LF]) = Some (bytes_of "FUNC?" ++ [x0a])
  /\ XdmMeter.get_response plain_decimal slow_line 5 a_meter (str "FUNC?")
       false w0
     = Some (Ok (XdmMeter.VStr (str "VOLT")), slow_world)
  /\ actions (log slow_world)
     = actions (log w0) ++ rounds 1 (bytes_of "FUNC?" ++ [x0a])
       ++ [EvWrite (bytes_of "FUNC?" ++ [x0a])].
Proof.
  assert (H : XdmMeter.get_response plain_decimal slow_line 5 a_meter
                (str "FUNC?") false w0
              = Some (Ok (XdmMeter.VStr (str "VOLT")), slow_world))
    by reflexivity.
  split; [reflexivity|]. split; [reflexivity|]. split; [exact H|].
  destruct (get_response_attempts pystr plain_decimal slow_line a_meter _
              eq_refl 5 (str "FUNC?") (bytes_of "FUNC?" ++ [x0a]) false
              w0 _ _ eq_refl H) as [[_ Ha] | [k [s [_ [Ha _]]]]];
    reflexivity.
Defined.

Lemma query_results_witness :
  XdmMeter.MiniBM a_meter
    = Some (SCPI.mkSCPI (str "COM23", 115200%N, 100%N))
  /\ XdmMeter.get_measurement plain_decimal abc_line 5 a_meter w0
     = Some (Ok (XdmMeter.VInt 0), abc_world)
  /\ (@Ok (XdmMeter.pyval pystr) (XdmMeter.VInt 0) = Ok (XdmMeter.VInt 0)
      \/ exists v, @Ok (XdmMeter.pyval pystr) (XdmMeter.VInt 0)
                   = Ok (XdmMeter.VFloat v)).
Proof.
  assert (H : XdmMeter.get_measurement plain_decimal abc_line 5 a_meter w0
              = Some (Ok (XdmMeter.VInt 0), abc_world)) by reflexivity.
  split; [reflexivity|]. split; [exact H|].
  exact (proj2 (query_results pystr plain_decimal abc_line a_meter _ eq_refl
                  5 w0 _ _) H).
Defined.


(** ** The script *)

Lemma startswith_refl s : startswith s s = true.
Proof. apply startswith_spec. exists []. symmetry. apply app_nil_r. Qed.

Lemma contains_refl s : contains s s = true.
Proof.
  unfold contains, find. rewrite find_from_eq, startswith_refl. reflexivity.
Qed.

Lemma last_cons {A} (a : A) l d : last (a :: l) d = last l a.
Proof.
  revert a d. induction l as [|b l IH]; intros a d; [reflexivity|].
  change (last (a :: b :: l) d) with (last (b :: l) d).
  rewrite (IH b d), (IH b a). reflexivity.
Qed.

Lemma scan_ports_run ports : forall port w,
  Main.scan_ports ports port w =
  Some (Ok (last (map ListPortInfo.device (filter hit ports)) port),
        mkWorld (reads w)
                (log w ++ map (fun p => EvPrint (Main.found_line p))
                              (filter hit ports))).
Proof.
  induction ports as [|p ports IH]; intros port w.
  - simpl. rewrite app_nil_r. destruct w; reflexivity.
  - simpl Main.scan_ports. rewrite contains_refl, andb_true_r.
    change (contains Main.CH340 (ListPortInfo.description p)) with (hit p).
    simpl filter. destruct (hit p).
    + unfold bind, print, emit. rewrite IH. simpl map.
      rewrite last_cons. simpl. rewrite <- app_assoc. reflexivity.
    + apply IH.
Qed.

Lemma choose_port_run ports w :
  Main.choose_port ports w =
  Some (Ok (if is_nil (last (map ListPortInfo.device (filter hit ports)) [])
            then str "COM23"
            else last (map ListPortInfo.device (filter hit ports)) []),
        mkWorld (reads w)
                (log w
                 ++ map (fun p => EvPrint (Main.found_line p))
                        (filter hit ports)
                 ++ (if is_nil (last (map ListPortInfo.device
                                        (filter hit ports)) [])
                     then [EvPrint (str "XDM not found")]
                     else []))).
Proof.
  unfold Main.choose_port, bind. rewrite scan_ports_run, pystr_eqb_nil.
  destruct (is_nil (last (map ListPortInfo.device (filter hit ports)) [])).
  - unfold print, emit, ret. simpl. rewrite <- app_assoc. reflexivity.
  - unfold ret. rewrite app_nil_r. reflexivity.
Qed.

(** X10.  The port the script takes is the device path of the last port
    whose description holds CH340, and COM23 when there is none or when
    that path is empty; it prints one line for each such port, in their
    order, and then, in the second case, that none was found.  The second
    test of the chained comparison decides nothing. *)
Theorem choose_port_takes_last_match ports w :
  let hits :=
    filter (fun p => contains (str "CH340") (ListPortInfo.description p))
           ports in
  let sel := last (map ListPortInfo.device hits) [] in
  Main.choose_port ports w =
  Some (Ok (if is_nil sel then str "COM23" else sel),
        mkWorld (reads w)
                (log w
                 ++ map (fun p => EvPrint (Main.found_line p)) hits
                 ++ (if is_nil sel then [EvPrint (str "XDM not found")]
                     else []))).
Proof.
  intros hits sel. subst sel hits.
  change (filter (fun p => contains (str "CH340")
                             (ListPortInfo.description p)) ports)
    with (filter hit ports).
  apply choose_port_run.
Qed.

Lemma writes_app l1 l2 : writes (l1 ++ l2) = writes l1 ++ writes l2.
Proof. apply flat_map_app. Qed.

Lemma writes_actions l : writes (actions l) = writes l.
Proof.
  induction l as [|e l IH]; [reflexivity|].
  destruct e; simpl; rewrite ?IH; reflexivity.
Qed.

Lemma writes_rounds k data : writes (rounds k data) = repeat data k.
Proof.
  induction k as [|k IH]; [reflexivity|]. simpl. rewrite IH. reflexivity.
Qed.

Lemma writes_print w text :
  writes (log w ++ [EvPrint text]) = writes (log w).
Proof. rewrite writes_app. simpl. apply app_nil_r. Qed.

Lemma writes_init port speed timeout data (b : bool) text text' :
  writes ([EvOpen port speed timeout; EvWrite data]
          ++ (if b then [EvClose; EvPrint text] else [EvPrint text']))
  = [data].
Proof. destruct b; reflexivity. Qed.

Lemma writes_found l :
  writes (map (fun p => EvPrint (Main.found_line p)) l) = [].
Proof. induction l as [|p l IH]; [reflexivity | exact IH]. Qed.

(** A query on an instance that identified its device: it has not raised,
    and it wrote its command one to six times and nothing else. *)
Lemma get_response_writes (F : Type) (float : pystr -> option F)
    dev self scpi fuel cmd data Numeric w r w1 :
  XdmMeter.MiniBM self = Some scpi ->
  encode_ascii (cmd ++ [LF]) = Some data ->
  XdmMeter.get_response float dev fuel self cmd Numeric w = Some (r, w1) ->
  exists v a,
    r = Ok v /\ (1 <= a <= 6)%nat
    /\ writes (log w1) = writes (log w) ++ repeat data a.
Proof.
  intros Hm He H.
  destruct (get_response_loop_run F float dev self scpi Hm fuel cmd data
              Numeric 0%Z w r w1 He ltac:(lia) H)
    as [k [[Hk [Hr Ha]] | [Hk [Ha [s [_ Hr]]]]]];
    apply (f_equal writes) in Ha; rewrite !writes_actions in Ha.
  - exists (XdmMeter.sentinel Numeric), k. split; [exact Hr|].
    split; [lia|].
    rewrite Ha, writes_app, writes_rounds, writes_actions. reflexivity.
  - exists (answer float Numeric s), (k + 1)%nat. split; [exact Hr|].
    split; [lia|].
    rewrite Ha, !writes_app, writes_rounds, writes_actions, repeat_app.
    reflexivity.
Qed.

Section Script.

Variable F : Type.
Variable float : pystr -> option F.
Variable float_str : F -> pystr.
Variable dev : device.

(** The script unfolded: the port chosen, the instance built, and then
    the four queries in turn. *)
Lemma main_run fuel ports w r w' :
  Main.main float float_str dev fuel ports w = Some (r, w') ->
  exists port w1 self w2,
    Main.choose_port ports w = Some (Ok port, w1)
    /\ writes (log w1) = writes (log w)
    /\ XdmMeter.__init__ dev fuel port w1 = Some (Ok self, w2)
    /\ writes (log w2) = writes (log w) ++ [bytes_of "*IDN?" ++ [x0a]]
    /\ ((XdmMeter.id self = Some [] /\ r = Raise AttributeError /\ w' = w2)
        \/ (XdmMeter.id self <> Some [] /\ r = Ok tt
            /\ exists a b c,
                 (1 <= a <= 6)%nat /\ (1 <= b <= 6)%nat
                 /\ (2 <= c <= 12)%nat
                 /\ writes (log w')
                    = writes (log w2)
                      ++ repeat (bytes_of "FUNC?" ++ [x0a]) a
                      ++ repeat (bytes_of "CONF:VOLT" ++ [x0a]) b
                      ++ repeat (bytes_of "MEAS?" ++ [x0a]) c)).
Proof.
  unfold Main.main, bind at 1. rewrite choose_port_run.
  set (port := if is_nil _ then _ else _).
  set (w1 := mkWorld _ _). intros H.
  assert (Hw1 : writes (log w1) = writes (log w)).
  { subst w1. simpl log. rewrite !writes_app, writes_found.
    destruct (is_nil _); simpl; rewrite ?app_nil_r; reflexivity. }
  unfold bind at 1 in H.
  destruct (XdmMeter.__init__ dev fuel port w1) as [[r0 w2]|] eqn:Ei;
    [|discriminate].
  destruct (init_run _ _ _ _ _ _ Ei) as [reply [-> Ha]].
  apply (f_equal writes) in Ha.
  rewrite writes_app, !writes_actions, Hw1, writes_init in Ha.
  exists port, w1. eexists. exists w2.
  split; [reflexivity|]. split; [exact Hw1|].
  split; [exact Ei|]. split; [exact Ha|].
  destruct fuel as [|fuel']; [cbv in Ei; discriminate|].
  destruct reply as [|c reply]; simpl is_nil in *; cbv iota in *.
  - left. unfold bind, XdmMeter.get_mode, XdmMeter.get_response in H.
    simpl in H. injection H as <- <-. auto.
  - right. split; [discriminate|].
    set (self := XdmMeter.mkXdm _ _) in *.
    unfold bind at 1 in H.
    destruct (XdmMeter.get_mode float dev (S fuel') self w2)
      as [[r1 w3]|] eqn:E1; [|discriminate].
    destruct (get_response_writes F float dev self _ _ (str "FUNC?")
                (bytes_of "FUNC?" ++ [x0a]) _ _ _ _
                eq_refl eq_refl E1) as [v1 [a [-> [Hab Hwa]]]].
    unfold bind at 1 2, print at 1 2, emit in H.
    set (w4 := mkWorld _ _) in H.
    assert (Hw4 : writes (log w4) = writes (log w3)).
    { subst w4. simpl log. rewrite !writes_app. simpl.
      rewrite !app_nil_r. reflexivity. }
    unfold bind at 1 in H.
    destruct (XdmMeter.set_mode float dev (S fuel') self XdmMeter.VOLT w4)
      as [[r2 w5]|] eqn:E2; [|discriminate].
    unfold XdmMeter.set_mode, bind in E2.
    destruct (XdmMeter.get_response float dev (S fuel') self _ false w4)
      as [[r2' w5']|] eqn:E2'; [|discriminate].
    destruct (get_response_writes F float dev self _ _
                (str "CONF:" ++ XdmMeter.format XdmMeter.VOLT)
                (bytes_of "CONF:VOLT" ++ [x0a]) _ _ _ _
                eq_refl eq_refl E2') as [v2 [b [-> [Hbb Hwb]]]].
    injection E2 as <- <-.
    unfold bind at 1 in H.
    destruct (XdmMeter.get_measurement float dev (S fuel') self w5')
      as [[r3 w6]|] eqn:E3; [|discriminate].
    destruct (get_response_writes F float dev self _ _ (str "MEAS?")
                (bytes_of "MEAS?" ++ [x0a]) _ _ _ _
                eq_refl eq_refl E3) as [v3 [c1 [-> [Hc1 Hwc1]]]].
    unfold bind at 1 in H.
    destruct (XdmMeter.get_response float dev (S fuel') self (str "MEAS?")
                true w6) as [[r4 w7]|] eqn:E4; [|discriminate].
    destruct (get_response_writes F float dev self _ _ (str "MEAS?")
                (bytes_of "MEAS?" ++ [x0a]) _ _ _ _
                eq_refl eq_refl E4) as [v4 [c2 [-> [Hc2 Hwc2]]]].
    unfold print, emit in H. injection H as <- <-.
    split; [reflexivity|]. exists a, b, (c1 + c2)%nat.
    split; [lia|]. split; [lia|]. split; [lia|].
    simpl log. rewrite writes_print, Hwc2, Hwc1, Hwb, Hw4, Hwa.
    rewrite repeat_app, <- !app_assoc. reflexivity.
Qed.

(** X11.  The script raises nothing but [AttributeError], and raises it
    exactly when the identification got no reply: then it stops behind
    the construction, at its first query, and otherwise it runs to its
    end. *)
Theorem main_outcome fuel ports w r w' :
  Main.main float float_str dev fuel ports w = Some (r, w') ->
  exists port w1 self w2,
    Main.choose_port ports w = Some (Ok port, w1)
    /\ XdmMeter.__init__ dev fuel port w1 = Some (Ok self, w2)
    /\ ((XdmMeter.id self = Some [] /\ r = Raise AttributeError /\ w' = w2)
        \/ (XdmMeter.id self <> Some [] /\ r = Ok tt)).
Proof.
  intros H. destruct (main_run _ _ _ _ _ H)
    as [port [w1 [self [w2 [Hc [_ [Hi [_ Ho]]]]]]]].
  exists port, w1, self, w2. split; [exact Hc|]. split; [exact Hi|].
  destruct Ho as [Ho | [Hid [Hr _]]]; [left; exact Ho | right; auto].
Qed.

(** X12.  What a run of the script wrote to the port: the identification
    query, once; and if that was answered, then FUNC? one to six times,
    then CONF:VOLT one to six times, then MEAS? two to twelve times, and
    nothing else. *)
Theorem main_commands fuel ports w r w' :
  Main.main float float_str dev fuel ports w = Some (r, w') ->
  (r = Raise AttributeError
   /\ writes (log w') = writes (log w) ++ [bytes_of "*IDN?" ++ [x0a]])
  \/ (r = Ok tt
      /\ exists a b c,
           (1 <= a <= 6)%nat /\ (1 <= b <= 6)%nat /\ (2 <= c <= 12)%nat
           /\ writes (log w')
              = writes (log w)
                ++ [bytes_of "*IDN?" ++ [x0a]]
                ++ repeat (bytes_of "FUNC?" ++ [x0a]) a
                ++ repeat (bytes_of "CONF:VOLT" ++ [x0a]) b
                ++ repeat (bytes_of "MEAS?" ++ [x0a]) c).
Proof.
  intros H. destruct (main_run _ _ _ _ _ H)
    as [port [w1 [self [w2 [_ [_ [_ [Hw2 Ho]]]]]]]].
  destruct Ho as [[_ [-> ->]] | [_ [-> [a [b [c [Ha [Hb [Hc Hw]]]]]]]]].
  - left. split; [reflexivity | exact Hw2].
  - right. split; [reflexivity|]. exists a, b, c.
    repeat (split; [assumption|]).
    rewrite Hw, Hw2, <- !app_assoc. reflexivity.
Qed.

End Script.

Example print_of_the_sentinel :
  Main.str_of (fun s : pystr => s) (XdmMeter.VInt 0) = str "0".
Proof. reflexivity. Qed.

Example script_on_a_device_that_answers_twice :
  exists w',
    Main.main plain_decimal (fun s => s) xdm_line 10
      [ListPortInfo.mk (str "COM7") (str "USB-SERIAL CH340 (COM7)")
                       (str "USB VID:PID=1A86:7523")] w0
    = Some (Ok tt, w')
    /\ writes (log w')
       = [bytes_of "*IDN?" ++ [x0a]; bytes_of "FUNC?" ++ [x0a]]
         ++ repeat (bytes_of "CONF:VOLT" ++ [x0a]) 6
         ++ repeat (bytes_of "MEAS?" ++ [x0a]) 12.
Proof. eexists. split; vm_compute; reflexivity. Qed.

Lemma main_outcome_witness :
  Main.main plain_decimal (fun s => s) silent 3 [] w0
    = Some (Raise AttributeError, main_absent_world)
  /\ exists port w1 self w2,
       Main.choose_port [] w0 = Some (Ok port, w1)
       /\ XdmMeter.__init__ silent 3 port w1 = Some (Ok self, w2)
       /\ ((XdmMeter.id self = Some []
            /\ @Raise unit AttributeError = Raise AttributeError
            /\ main_absent_world = w2)
           \/ (XdmMeter.id self <> Some []
               /\ @Raise unit AttributeError = Ok tt)).
Proof.
  assert (H : Main.main plain_decimal (fun s => s) silent 3 [] w0
              = Some (Raise AttributeError, main_absent_world))
    by reflexivity.
  split; [exact H|].
  exact (main_outcome pystr plain_decimal (fun s => s) silent 3 [] w0 _ _ H).
Defined.

Lemma main_commands_witness :
  Main.main plain_decimal (fun s => s) silent 3 [] w0
    = Some (Raise AttributeError, main_absent_world)
  /\ writes (log main_absent_world)
     = writes (log w0) ++ [bytes_of "*IDN?" ++ [x0a]].
Proof.
  assert (H : Main.main plain_decimal (fun s => s) silent 3 [] w0
              = Some (Raise AttributeError, main_absent_world))
    by reflexivity.
  split; [exact H|].
  destruct (main_commands pystr plain_decimal (fun s => s) silent 3 [] w0
              _ _ H) as [[_ Hw] | [Hr _]]; [exact Hw | discriminate Hr].
Defined.

(** ** [sendcmd] on any message *)

Lemma encode_ascii_some s :
  Forall (fun c => (c < 128)%N) s -> exists bs, encode_ascii s = Some bs.
Proof.
  induction 1 as [|c s Hc _ [bs IH]]; [exists []; reflexivity|].
  destruct (of_N_ascii c Hc) as [b Hb]. exists (b :: bs). simpl.
  apply N.ltb_lt in Hc. rewrite Hc, Hb, IH. reflexivity.
Qed.

Lemma ascii_or_not s :
  Forall (fun c => (c < 128)%N) s \/ Exists (fun c => (128 <= c)%N) s.
Proof.
  induction s as [|c s [IH | IH]].
  - left. constructor.
  - destruct (N.lt_ge_cases c 128) as [H | H].
    + left. constructor; assumption.
    + right. apply Exists_cons_hd. exact H.
  - right. apply Exists_cons_tl. exact IH.
Qed.

(** A send of an ASCII command, with its reply asked for: the log grows
    by the write and then by the reads, of which there is one at least. *)
Lemma sendcmd_full dev fuel msg data w r w' :
  encode_ascii (msg ++ [LF]) = Some data ->
  SCPI.sendcmd dev fuel msg true w = Some (r, w') ->
  exists s m,
    r = Ok (Some s)
    /\ w' = mkWorld (reads w + S m)
              (log w ++ EvWrite data :: read_events (chunks dev w) (S m)).
Proof.
  intros He H. rewrite (sendcmd_run _ _ _ _ _ He) in H.
  destruct (SCPI.readdata dev fuel (written w data)) as [[r0 w2]|] eqn:E;
    [|discriminate].
  apply readdata_some in E. destruct E as [buf [w3 [Hl Heq]]].
  injection Heq as -> ->. injection H as <- <-.
  apply loop_some in Hl. destruct Hl as [m [_ [_ [_ Heq]]]].
  injection Heq as _ ->. exists (SCPI.frame_text buf), m.
  split; [reflexivity|]. simpl. rewrite <- app_assoc. reflexivity.
Qed.

(** X13.  [sendcmd] raises only for a message with a character beyond
    ASCII, and then before anything is written.  Otherwise the log grows
    by the write of the message and a line feed, bytes that decode back to
    them, and behind that write by reads only: none, and the result is
    [None], when no data is asked for; one at least, and the result is a
    line, when data is asked for. *)
Theorem sendcmd_outcome dev fuel msg getdata w r w' :
  SCPI.sendcmd dev fuel msg getdata w = Some (r, w') ->
  (Exists (fun c => (128 <= c)%N) msg
   /\ r = Raise UnicodeEncodeError /\ w' = w)
  \/ (exists data m,
        encode_ascii (msg ++ [LF]) = Some data
        /\ decode data = msg ++ [LF]
        /\ w' = mkWorld (reads w + m)
                  (log w ++ EvWrite data :: read_events (chunks dev w) m)
        /\ if getdata then (1 <= m)%nat /\ exists s, r = Ok (Some s)
           else m = 0%nat /\ r = Ok None).
Proof.
  intros H. destruct (ascii_or_not msg) as [Ha | Hn].
  - right.
    destruct (encode_ascii_some (msg ++ [LF])) as [data He].
    { apply Forall_app. split; [exact Ha | repeat constructor]. }
    destruct getdata.
    + destruct (sendcmd_full _ _ _ _ _ _ _ He H) as [s [m [-> ->]]].
      exists data, (S m). split; [exact He|].
      split; [exact (proj1 (encode_ascii_decode _ _ He))|].
      split; [reflexivity|]. split; [lia | eauto].
    + exists data, 0%nat. split; [exact He|].
      split; [exact (proj1 (encode_ascii_decode _ _ He))|].
      unfold SCPI.sendcmd in H. rewrite He in H.
      unfold bind, Serial_write, emit, ret in H. injection H as <- <-.
      split; [|split; reflexivity].
      rewrite Nat.add_0_r. reflexivity.
  - left. rewrite (sendcmd_non_ascii _ _ _ _ _ Hn) in H.
    injection H as <- <-. auto.
Qed.

Lemma sendcmd_outcome_witness :
  SCPI.sendcmd abc_line 3 (str "MEAS?") true w0
    = Some (Ok (Some (str "abc")), abc_world)
  /\ exists data m,
       encode_ascii (str "MEAS?" ++ [LF]) = Some data
       /\ decode data = str "MEAS?" ++ [LF]
       /\ abc_world
          = mkWorld (reads w0 + m)
              (log w0 ++ EvWrite data :: read_events (chunks abc_line w0) m)
       /\ (1 <= m)%nat
       /\ exists s, Ok (Some (str "abc")) = Ok (Some s).
Proof.
  assert (H : SCPI.sendcmd abc_line 3 (str "MEAS?") true w0
              = Some (Ok (Some (str "abc")), abc_world)) by reflexivity.
  split; [exact H|].
  destruct (sendcmd_outcome abc_line 3 (str "MEAS?") true w0 _ _ H)
    as [[_ [Hr _]] | [data [m [He [Hd [Hw [Hm Hs]]]]]]];
    [discriminate Hr|].
  exists data, m. auto.
Defined.

(** ** A query answered at once *)

(** X14.  On an instance that identified its device, the command is
    ASCII and the replies behind its write are a frame as in X3 whose
    text is not empty: then [get_response] writes the command once, reads
    up to the end of the frame, pauses nowhere, and returns the number
    read from the text, 0 if it is none, or the repaired text. *)
Theorem get_response_first_answer (F : Type) (float : pystr -> option F)
    dev self scpi cmd data Numeric w m payload :
  XdmMeter.MiniBM self = Some scpi ->
  encode_ascii (cmd ++ [LF]) = Some data ->
  (forall j, (j < m)%nat -> ~ ends_crlf (acc (chunks dev w) (S j))) ->
  (empties (chunks dev w) (S m) <= 2)%nat ->
  acc (chunks dev w) (S m) = payload ++ CRLF_bytes ->
  ~ (exists p q, payload = p ++ CRLF_bytes ++ q) ->
  strip (decode payload) <> [] ->
  forall fuel, (S m < fuel)%nat ->
    XdmMeter.get_response float dev fuel self cmd Numeric w =
    Some (Ok (if Numeric then
                match float (strip (decode payload)) with
                | Some v => XdmMeter.VFloat v
                | None => XdmMeter.VInt 0
                end
              else XdmMeter.VStr (XdmMeter.repair (strip (decode payload)))),
          mkWorld (reads w + S m)
                  (log w ++ EvWrite data :: read_events (chunks dev w) (S m))).
Proof.
  intros Hm He Hno Hemp Hacc Hpay Hs fuel Hfuel.
  destruct fuel as [|fuel]; [lia|].
  unfold XdmMeter.get_response.
  rewrite (get_response_loop_step F float dev self scpi Hm).
  rewrite (sendcmd_run _ _ _ _ _ He).
  rewrite (readdata_frame_run dev (written w data) m payload Hno Hemp Hacc
             Hpay fuel ltac:(lia)).
  destruct (strip (decode payload)) as [|c s] eqn:E; [congruence|].
  simpl is_nil. cbv iota. simpl log. rewrite <- app_assoc.
  destruct Numeric; [destruct (float (c :: s))|]; reflexivity.
Qed.

Lemma get_response_first_answer_witness :
  XdmMeter.MiniBM a_meter
    = Some (SCPI.mkSCPI (str "COM23", 115200%N, 100%N))
  /\ encode_ascii (str "FUNC?" ++ [LF]) = Some (bytes_of "FUNC?" ++ [x0a])
  /\ acc (chunks volt_line w0) 2 = bytes_of " VOLT" ++ CRLF_bytes
  /\ strip (decode (bytes_of " VOLT")) <> []
  /\ XdmMeter.get_response plain_decimal volt_line 3 a_meter (str "FUNC?")
       false w0
     = Some (Ok (XdmMeter.VStr
                   (XdmMeter.repair (strip (decode (bytes_of " VOLT"))))),
             mkWorld (reads w0 + 2)
                     (log w0 ++ EvWrite (bytes_of "FUNC?" ++ [x0a])
                             :: read_events (chunks volt_line w0) 2)).
Proof.
  split; [reflexivity|]. split; [reflexivity|]. split; [reflexivity|].
  split; [discriminate|].
  apply (get_response_first_answer pystr plain_decimal volt_line a_meter _
           (str "FUNC?") (bytes_of "FUNC?" ++ [x0a]) false w0 1
           (bytes_of " VOLT") eq_refl eq_refl).
  - intros j Hj. assert (j = 0%nat) by lia. subst j.
    intros [p Hp]. simpl in Hp.
    repeat (destruct p as [|? p]; [discriminate Hp|]; try discriminate Hp;
            injection Hp as _ Hp).
  - simpl. lia.
  - reflexivity.
  - exact volt_payload_plain.
  - discriminate.
  - lia.
Defined.
